(** * uiuccourse: the three page scanners and the caching course fetcher

    A shallow embedding of [uiuccourse.py].  The module is Python 2: the
    three [HTMLParser] subclasses are state machines driven by the
    [handle_starttag] / [handle_data] callbacks, and [UIUCCourseFetcher]
    memoises what they return in three dictionaries.

    Python values are embedded as follows.
    - [str] is [string]; [None]-or-[str] is [option string];
    - a [dict] is a [gmap] (extensional, like [==] on dictionaries);
    - an exception is the [Raise] outcome of [result];
    - the fetcher's methods mutate [self] and may raise, so they live in a
      state-and-exception monad in which the mutated state survives the
      exception, as it does in Python. *)

From Stdlib Require Import ZArith String Ascii List Bool Lia.
From stdpp Require Import base option list strings gmap fin_maps.
Import ListNotations.

Local Open Scope string_scope.
Local Open Scope Z_scope.
Local Open Scope list_scope.

(** ** Outcomes of Python code *)

Inductive py_exception : Type :=
  | AttributeError   (* [None.strip()] *)
  | IndexError       (* list index out of range *)
  | KeyError         (* missing dictionary key *)
  | ValueError       (* [int] of a non-numeral *)
  | URLError.        (* [urllib2.urlopen] could not get the resource *)

Inductive result (A : Type) : Type :=
  | Ok (a : A)
  | Raise (e : py_exception).
Arguments Ok {A} a.
Arguments Raise {A} e.

Definition is_ok {A} (r : result A) : bool :=
  match r with Ok _ => true | Raise _ => false end.

(** ** The [str] methods the module uses *)

Module PyStr.

(** The characters [str.strip()] removes and the class [\s] of [re]
    matches on byte strings: space, [\t], [\n], [\v], [\f], [\r]. *)
Definition isspace (c : ascii) : bool :=
  let n := nat_of_ascii c in
  (Nat.eqb n 32 || (Nat.leb 9 n && Nat.leb n 13))%bool.

Definition lower_char (c : ascii) : ascii :=
  let n := nat_of_ascii c in
  if (Nat.leb 65 n && Nat.leb n 90)%bool then ascii_of_nat (n + 32) else c.

Definition upper_char (c : ascii) : ascii :=
  let n := nat_of_ascii c in
  if (Nat.leb 97 n && Nat.leb n 122)%bool then ascii_of_nat (n - 32) else c.

Fixpoint lower (s : string) : string :=
  match s with
  | EmptyString => EmptyString
  | String c s' => String (lower_char c) (lower s')
  end.

Fixpoint upper (s : string) : string :=
  match s with
  | EmptyString => EmptyString
  | String c s' => String (upper_char c) (upper s')
  end.

Fixpoint lstrip (s : string) : string :=
  match s with
  | EmptyString => EmptyString
  | String c s' => if isspace c then lstrip s' else s
  end.

Fixpoint rstrip (s : string) : string :=
  match s with
  | EmptyString => EmptyString
  | String c s' =>
      match rstrip s' with
      | EmptyString => if isspace c then EmptyString else String c EmptyString
      | r => String c r
      end
  end.

Definition strip (s : string) : string := rstrip (lstrip s).

(** [s.split(' ')]: the pieces between single space characters; a string
    with [n] spaces gives [n + 1] pieces, empty ones included. *)
Fixpoint split_space (s : string) : list string :=
  match s with
  | EmptyString => [EmptyString]
  | String c s' =>
      if Ascii.eqb c " " then EmptyString :: split_space s'
      else match split_space s' with
           | piece :: rest => String c piece :: rest
           | [] => [String c EmptyString]
           end
  end.

(** [' ' not in s] *)
Fixpoint no_space (s : string) : bool :=
  match s with
  | EmptyString => true
  | String c s' => negb (Ascii.eqb c " ") && no_space s'
  end.

(** The label's whitespace-separated tokens, as the specification counts
    them: the maximal runs of characters that are not whitespace.  [cur]
    is the token being read, if any. *)
Fixpoint tokens_go (cur : option string) (s : string) : list string :=
  match s with
  | EmptyString => from_option (λ t, [t]) [] cur
  | String c s' =>
      if isspace c
      then from_option (λ t, [t]) [] cur ++ tokens_go None s'
      else tokens_go (Some (from_option id EmptyString cur +:+ String c EmptyString)) s'
  end.

Definition tokens : string → list string := tokens_go None.

(** [s[n:]] *)
Fixpoint slice_from (n : nat) (s : string) : string :=
  match n, s with
  | O, _ => s
  | S n', String _ s' => slice_from n' s'
  | S _, EmptyString => EmptyString
  end.

(** [re.compile('\s+').sub(' ', s)]: every maximal run of whitespace
    becomes one space.  [in_run] tells that the previous character was
    whitespace, already replaced. *)
Fixpoint sub_spaces (in_run : bool) (s : string) : string :=
  match s with
  | EmptyString => EmptyString
  | String c s' =>
      if isspace c
      then (if in_run then sub_spaces true s'
            else String " " (sub_spaces true s'))
      else String c (sub_spaces false s')
  end.

Definition digit_of (c : ascii) : option Z :=
  let n := nat_of_ascii c in
  if (Nat.leb 48 n && Nat.leb n 57)%bool then Some (Z.of_nat (n - 48)) else None.

(** Value of a non-empty run of decimal digits, [acc] being the value of
    the digits already read. *)
Fixpoint digits (acc : Z) (s : string) : option Z :=
  match s with
  | EmptyString => Some acc
  | String c s' =>
      match digit_of c with
      | Some d => digits (10 * acc + d) s'
      | None => None
      end
  end.

Definition unsigned (s : string) : option Z :=
  match s with
  | EmptyString => None
  | _ => digits 0 s
  end.

(** [int(s)] on a [str]: surrounding whitespace is ignored, then an
    optional sign and at least one decimal digit; anything else raises
    [ValueError]. *)
Definition int (s : string) : result Z :=
  let body :=
    match strip s with
    | String "-" s' => Z.opp <$> unsigned s'
    | String "+" s' => unsigned s'
    | s' => unsigned s'
    end in
  match body with
  | Some n => Ok n
  | None => Raise ValueError
  end.

(** [str(n)] for an integer. *)
Fixpoint str_pos (fuel : nat) (n : Z) (acc : string) : string :=
  match fuel with
  | O => acc
  | S fuel' =>
      let acc' := String (ascii_of_nat (48 + Z.to_nat (n mod 10))) acc in
      if n <? 10 then acc' else str_pos fuel' (n / 10) acc'
  end.

Definition str (n : Z) : string :=
  if n <? 0 then String "-" (str_pos (S (Z.to_nat (Z.log2 (- n)))) (- n) EmptyString)
  else str_pos (S (Z.to_nat (Z.log2 n))) n EmptyString.

End PyStr.

(** ** What [HTMLParser] hands to a subclass

    [HTMLParser.feed] calls [handle_starttag(tag, attrs)] with the
    attributes as a list of (name, value) pairs, the value being [None] for
    an attribute written without one, [handle_data(data)] for text, and
    other callbacks ([handle_endtag], [handle_comment], ...) that none of
    the three subclasses overrides. *)

Definition attr_list : Type := list (string * option string).

Inductive callback : Type :=
  | StartTag (tag : string) (attrs : attr_list)
  | Data (data : string)
  | OtherCallback.

(** [dict(attrs)]: a later pair overrides an earlier one with its name. *)
Definition py_dict (attrs : attr_list) : gmap string (option string) :=
  foldl (λ m kv, <[kv.1 := kv.2]> m) ∅ attrs.

(** [d.get(k)]: [None] when the key is missing, and also when the stored
    value is [None]. *)
Definition dict_get (d : gmap string (option string)) (k : string) : option string :=
  mjoin (d !! k).

(** A subclass of [HTMLParser], as the fetcher's [__parse_url] uses it: it
    is instantiated, fed, and asked for [get_result()]. *)
Record parser_class (R : Type) : Type := {
  pstate : Type;
  pinit : pstate;
  handle_starttag : pstate → string → attr_list → result pstate;
  handle_data : pstate → string → result pstate;
  get_result : pstate → R
}.
Arguments pstate {R} _.
Arguments pinit {R} _.
Arguments handle_starttag {R} _ _ _ _.
Arguments handle_data {R} _ _ _.
Arguments get_result {R} _ _.

Definition dispatch {R} (P : parser_class R) (st : pstate P) (cb : callback)
  : result (pstate P) :=
  match cb with
  | StartTag tag attrs => handle_starttag P st tag attrs
  | Data data => handle_data P st data
  | OtherCallback => Ok st
  end.

(** The callbacks are delivered in order; the first exception ends the
    run. *)
Fixpoint run {R} (P : parser_class R) (st : pstate P) (cbs : list callback)
  : result (pstate P) :=
  match cbs with
  | [] => Ok st
  | cb :: cbs' =>
      match dispatch P st cb with
      | Ok st' => run P st' cbs'
      | Raise e => Raise e
      end
  end.


(** ** UIUCSubjectListParser *)

Module SubjectListParser.

Record state : Type := {
  subject_list : list string;
  ready : bool
}.

Definition init : state := {| subject_list := []; ready := false |}.

Definition handle_starttag (self : state) (tag : string) (attrs : attr_list)
  : result state :=
  let attrs := py_dict attrs in
  if bool_decide (PyStr.lower tag = "div")
     && bool_decide (dict_get attrs "class" = Some "ws-course-number")
  then Ok {| subject_list := subject_list self; ready := true |}
  else Ok {| subject_list := subject_list self; ready := false |}.

Definition handle_data (self : state) (data : string) : result state :=
  if ready self
  then Ok {| subject_list := subject_list self ++ [data]; ready := ready self |}
  else Ok self.

Definition get_result (self : state) : list string := subject_list self.

Definition class : parser_class (list string) :=
  Build_parser_class _ state init handle_starttag handle_data get_result.

End SubjectListParser.

(** ** UIUCCourseListParser *)

Module CourseListParser.

Record state : Type := {
  course_no : list string;
  ready : bool
}.

Definition init : state := {| course_no := []; ready := false |}.

Definition handle_starttag (self : state) (tag : string) (attrs : attr_list)
  : result state :=
  let attrs := py_dict attrs in
  if bool_decide (PyStr.lower tag = "div")
     && bool_decide (dict_get attrs "class" = Some "ws-course-number")
  then Ok {| course_no := course_no self; ready := true |}
  else Ok {| course_no := course_no self; ready := false |}.

(** [self.course_no.append(data.split(' ')[1])]: the subscript raises
    [IndexError] when the split has a single piece. *)
Definition handle_data (self : state) (data : string) : result state :=
  if ready self
  then match PyStr.split_space data !! 1%nat with
       | Some piece =>
           Ok {| course_no := course_no self ++ [piece]; ready := ready self |}
       | None => Raise IndexError
       end
  else Ok self.

Definition get_result (self : state) : list string := course_no self.

Definition class : parser_class (list string) :=
  Build_parser_class _ state init handle_starttag handle_data get_result.

End CourseListParser.

(** ** UIUCSectionListParser *)

(** A section record: field name to text. *)
Abbreviation section_record := (gmap string string).
(** The result of a section page: CRN to section record. *)
Abbreviation section_map := (gmap Z (gmap string string)).

Module SectionListParser.

Record state : Type := {
  sections : section_map;
  current_crn : option Z;
  property_to_write : option string
}.

Definition headers : list string :=
  ["ws-crn"; "ws-type"; "ws-section"; "ws-time";
   "ws-days"; "ws-location"; "ws-instructor"].

Definition init : state :=
  {| sections := ∅; current_crn := None; property_to_write := None |}.

Definition set_property (self : state) (p : option string) : state :=
  {| sections := sections self; current_crn := current_crn self;
     property_to_write := p |}.

(** The value of [x and y] where [x] is a boolean and [y] a string:
    [False] when [x] is false, else [y]. *)
Inductive and_value : Type :=
  | VFalse
  | VStr (s : string).

(** [v == 'ws-row']: [False] equals no string. *)
Definition and_value_eq_str (v : and_value) (s : string) : bool :=
  match v with
  | VFalse => false
  | VStr s' => bool_decide (s' = s)
  end.

(** [v in self.headers] for [v] returned by [get]; [None] is not in the
    list. *)
Definition in_headers (v : option string) : bool :=
  match v with
  | Some h => bool_decide (h ∈ headers)
  | None => false
  end.

(** [attrs.get('headers') in self.headers and attrs.get('class').strip()];
    the right operand is evaluated only when the left one is true, and
    calls [strip] on whatever [get] returned. *)
Definition headers_and_class (attrs : gmap string (option string))
  : result and_value :=
  if in_headers (dict_get attrs "headers")
  then match dict_get attrs "class" with
       | Some c => Ok (VStr (PyStr.strip c))
       | None => Raise AttributeError
       end
  else Ok VFalse.

(** [tag.lower() == 'td' and (...) == 'ws-row'] *)
Definition is_row_cell (tag : string) (attrs : gmap string (option string))
  : result bool :=
  if bool_decide (PyStr.lower tag = "td")
  then match headers_and_class attrs with
       | Ok v => Ok (and_value_eq_str v "ws-row")
       | Raise e => Raise e
       end
  else Ok false.

Definition handle_starttag (self : state) (tag : string) (attrs : attr_list)
  : result state :=
  let attrs := py_dict attrs in
  if bool_decide (PyStr.lower tag = "br")
     && bool_decide (property_to_write self = Some "ws-location")
  then Ok self
  else match is_row_cell tag attrs with
       | Ok true => Ok (set_property self (dict_get attrs "headers"))
       | Ok false => Ok (set_property self None)
       | Raise e => Raise e
       end.

(** [self.current_crn = int(data); self.sections[self.current_crn] = {}] *)
Definition start_section (self : state) (crn : Z) : state :=
  {| sections := <[crn := ∅]> (sections self);
     current_crn := Some crn;
     property_to_write := property_to_write self |}.

Definition clean (data : string) : string :=
  PyStr.sub_spaces false (PyStr.strip data).

Definition handle_data (self : state) (data : string) : result state :=
  if bool_decide (property_to_write self = Some "ws-crn")
  then match PyStr.int data with
       | Ok crn => Ok (start_section self crn)
       | Raise _ =>
           Ok {| sections := sections self; current_crn := None;
                 property_to_write := property_to_write self |}
       end
  else match current_crn self, property_to_write self with
       | Some crn, Some property =>
           let data := clean data in
           if bool_decide (property = "ws-crn")
           then match PyStr.int data with
                | Ok crn' => Ok (start_section self crn')
                | Raise e => Raise e
                end
           else match sections self !! crn with
                | None => Raise KeyError
                | Some current_section =>
                    let key := PyStr.slice_from 3 property in
                    let value :=
                      match current_section !! key with
                      | None => data
                      | Some old => old +:+ ", " +:+ data
                      end in
                    Ok {| sections :=
                            <[crn := <[key := value]> current_section]>
                              (sections self);
                          current_crn := current_crn self;
                          property_to_write := property_to_write self |}
                end
       | _, _ => Ok self
       end.

Definition get_result (self : state) : section_map := sections self.

Definition class : parser_class section_map :=
  Build_parser_class _ state init handle_starttag handle_data get_result.

(** The current CRN, when there is one, has its record: the two are set
    by the same two statements and no record is ever removed. *)
Definition crn_has_record (self : state) : Prop :=
  match current_crn self with
  | Some crn => is_Some (sections self !! crn)
  | None => True
  end.

(** No text of [cbs] arrives in the crn field state with a numeral that
    [int] accepts, when the callbacks are delivered from state [self]. *)
Fixpoint no_valid_crn (self : state) (cbs : list callback) : bool :=
  match cbs with
  | [] => true
  | cb :: rest =>
      match cb with
      | Data data =>
          negb (bool_decide (property_to_write self = Some "ws-crn")
                && is_ok (PyStr.int data))
      | _ => true
      end
      && match dispatch class self cb with
         | Ok self' => no_valid_crn self' rest
         | Raise _ => true
         end
  end.

End SectionListParser.

(** ** UIUCCourseFetcher *)

(** A course number is what the caller passes ([493]) or what the course
    page gave (a [str]); as dictionary keys the two never coincide. *)
Inductive course_key : Type :=
  | CInt (n : Z)
  | CStr (s : string).

Global Instance course_key_eq_dec : EqDecision course_key.
Proof. solve_decision. Defined.

Global Instance course_key_countable : Countable course_key.
Proof.
  refine (inj_countable'
            (λ c, match c with CInt n => inl n | CStr s => inr s end)
            (λ x, match x with inl n => CInt n | inr s => CStr s end) _).
  by intros [].
Defined.

(** [str(course_no)] *)
Definition str_course (c : course_key) : string :=
  match c with
  | CInt n => PyStr.str n
  | CStr s => s
  end.

(** Subject to course to CRN to section record: what [fetch] returns and
    what [self.section_list] holds. *)
Abbreviation schedule := (gmap string (gmap course_key (gmap Z (gmap string string)))).

(** The parser class handed to [__parse_url]. *)
Inductive parser_name : Type :=
  | UIUCSubjectListParser
  | UIUCCourseListParser
  | UIUCSectionListParser.

Global Instance parser_name_eq_dec : EqDecision parser_name.
Proof. solve_decision. Defined.

(** The [subject] argument of [fetch], by the types the method tells apart
    or its docstring names. *)
Inductive subject_arg : Type :=
  | ArgNone
  | ArgStr (s : string)
  | ArgList (l : list string)
  | ArgTuple (l : list string).

Module CourseFetcher.

(** The instance attributes, and [requests]: the calls of
    [urllib2.urlopen] made so far, oldest first, each with the parser
    class it was made for. *)
Record fetcher : Type := {
  urls_root : string;
  urls_portal : string;
  subject_list : option (list string);
  course_list : gmap string (list string);
  section_list : schedule;
  requests : list (parser_name * string)
}.

Definition set_subject_list (v : option (list string)) (self : fetcher) : fetcher :=
  {| urls_root := urls_root self; urls_portal := urls_portal self;
     subject_list := v; course_list := course_list self;
     section_list := section_list self; requests := requests self |}.

Definition set_course_list (v : gmap string (list string)) (self : fetcher) : fetcher :=
  {| urls_root := urls_root self; urls_portal := urls_portal self;
     subject_list := subject_list self; course_list := v;
     section_list := section_list self; requests := requests self |}.

Definition set_section_list (v : schedule) (self : fetcher) : fetcher :=
  {| urls_root := urls_root self; urls_portal := urls_portal self;
     subject_list := subject_list self; course_list := course_list self;
     section_list := v; requests := requests self |}.

Definition log_request (r : parser_name * string) (self : fetcher) : fetcher :=
  {| urls_root := urls_root self; urls_portal := urls_portal self;
     subject_list := subject_list self; course_list := course_list self;
     section_list := section_list self; requests := requests self ++ [r] |}.

(** *** Methods as state transformers that may raise *)

Definition M (A : Type) : Type := fetcher → result A * fetcher.

Definition ret {A} (a : A) : M A := λ self, (Ok a, self).

Definition bind {A B} (m : M A) (k : A → M B) : M B :=
  λ self,
    match m self with
    | (Ok a, self') => k a self'
    | (Raise e, self') => (Raise e, self')
    end.

Definition raise {A} (e : py_exception) : M A := λ self, (Raise e, self).
Definition get : M fetcher := λ self, (Ok self, self).
Definition modify (f : fetcher → fetcher) : M unit := λ self, (Ok tt, f self).

Global Instance M_ret : MRet M := @ret.
Global Instance M_bind : MBind M := λ A B k m, bind m k.

(** Python truth value of what [dict.get] returned: [None], an empty list
    and an empty dictionary are false. *)
Definition truthy_list {A} (v : option (list A)) : bool :=
  match v with
  | Some (_ :: _) => true
  | _ => false
  end.

Definition truthy_dict `{Countable K} {A} (v : option (gmap K A)) : bool :=
  match v with
  | Some m => negb (bool_decide (m = ∅))
  | None => false
  end.

(** *** __init__ *)

Definition site_root : string := "http://courses.illinois.edu/cis/".

(** The month branch of [__init__]. *)
Definition term_of_month (month : Z) : string :=
  if month <? 5 then "spring"
  else if month <? 8 then "summer"
  else "fall".

(** [term == None or (term != 'spring' or term != 'fall' or
    term != 'summer')], on the lowercased argument. *)
Definition term_rejected (term : option string) : bool :=
  match term with
  | None => true
  | Some t =>
      negb (bool_decide (t = "spring"))
      || negb (bool_decide (t = "fall"))
      || negb (bool_decide (t = "summer"))
  end.

(** The term the URLs are built from: the month's when the test above
    holds, the lowercased argument otherwise. *)
Definition resolve_term (today_month : Z) (term : option string) : string :=
  let term := PyStr.lower <$> term in
  if term_rejected term then term_of_month today_month
  else default EmptyString term.

(** [self.subject_list = None; self.course_list = {};
    self.section_list = {}] *)
Definition flush_state (self : fetcher) : fetcher :=
  {| urls_root := urls_root self; urls_portal := urls_portal self;
     subject_list := None; course_list := ∅; section_list := ∅;
     requests := requests self |}.

Definition flush : M unit := modify flush_state.

(** [UIUCCourseFetcher(year, term)] on the day [datetime.date.today()]
    is in [today_year], [today_month]. *)
Definition init (today_year today_month : Z)
    (year : option Z) (term : option string) : fetcher :=
  let year := default today_year year in
  let term := resolve_term today_month term in
  flush_state
    {| urls_root := site_root +:+ PyStr.str year +:+ "/" +:+ term +:+ "/schedule/";
       urls_portal := site_root +:+ PyStr.str year +:+ "/" +:+ term
                      +:+ "/schedule/index.html";
       subject_list := None; course_list := ∅; section_list := ∅;
       requests := [] |}.

Section Transport.

(** The collaborators outside the module: [urllib2.urlopen(url)],
    giving the lines of the resource or raising, and [HTMLParser]
    itself: [callbacks lines] are the handler calls it makes while the
    lines are fed one by one and the parser is closed.  The result of
    [get_result()] is the very list or dictionary the handlers fill,
    so calls made by [close()] still show in it. *)
Variable urlopen : string → result (list string).
Variable callbacks : list string → list callback.

(** [__parse_url(parser, url)]; every call in the class passes both
    arguments. *)
(** The body of [__parse_url] without the fetcher: open the resource,
    make a parser, feed it, take its result. *)
Definition read_page {R} (P : parser_class R) (url : string) : result R :=
  match urlopen url with
  | Raise e => Raise e
  | Ok lines =>
      match run P (pinit P) (callbacks lines) with
      | Ok hp => Ok (get_result P hp)
      | Raise e => Raise e
      end
  end.

Definition parse_url {R} (name : parser_name) (P : parser_class R)
    (url : string) : M R :=
  modify (log_request (name, url)) ;;
  match read_page P url with
  | Ok r => ret r
  | Raise e => raise e
  end.

Definition fetch_subject_list : M (list string) :=
  self ← get;
  match subject_list self with
  | None =>
      r ← parse_url UIUCSubjectListParser SubjectListParser.class
             (urls_portal self);
      modify (set_subject_list (Some r)) ;;
      ret r
  | Some l => ret l
  end.

(** [return d[k]] *)
Definition subscript `{Countable K} {A} (d : gmap K A) (k : K) : M A :=
  match d !! k with
  | Some v => ret v
  | None => raise KeyError
  end.

Definition fetch_course_list (subject : string) : M (list string) :=
  self ← get;
  (if truthy_list (course_list self !! subject) then ret tt
   else
     let subj_url := urls_root self +:+ PyStr.upper subject +:+ "/" in
     r ← parse_url UIUCCourseListParser CourseListParser.class subj_url;
     self ← get;
     modify (set_course_list (<[subject := r]> (course_list self)))) ;;
  self ← get;
  subscript (course_list self) subject.

Definition fetch_section_list (subject : string) (course_no : course_key)
  : M section_map :=
  self ← get;
  (if truthy_dict (section_list self !! subject) then ret tt
   else modify (set_section_list (<[subject := ∅]> (section_list self)))) ;;
  self ← get;
  of_subject ← subscript (section_list self) subject;
  (if truthy_dict (of_subject !! course_no) then ret tt
   else
     let course_url := urls_root self +:+ PyStr.upper subject +:+ "/"
                       +:+ str_course course_no +:+ ".html" in
     r ← parse_url UIUCSectionListParser SectionListParser.class course_url;
     self ← get;
     of_subject ← subscript (section_list self) subject;
     modify (set_section_list
               (<[subject := <[course_no := r]> of_subject]> (section_list self)))) ;;
  self ← get;
  of_subject ← subscript (section_list self) subject;
  subscript of_subject course_no.

(** The inner loop of [fetch]: [section_list[subject][course] =
    self.fetch_section_list(subject, course)] for each course. *)
Fixpoint fetch_courses (subject : string) (courses : list string)
    (acc : gmap course_key section_map) : M (gmap course_key section_map) :=
  match courses with
  | [] => ret acc
  | course :: rest =>
      r ← fetch_section_list subject (CStr course);
      fetch_courses subject rest (<[CStr course := r]> acc)
  end.

(** The outer loop of [fetch]. *)
Fixpoint fetch_subjects (subjects : list string) (acc : schedule) : M schedule :=
  match subjects with
  | [] => ret acc
  | subject :: rest =>
      courses ← fetch_course_list subject;
      of_subject ← fetch_courses subject courses ∅;
      fetch_subjects rest (<[subject := of_subject]> acc)
  end.

Definition fetch (subject : subject_arg) (course_no : option course_key)
  : M schedule :=
  match subject with
  | ArgStr s =>
      match course_no with
      | None => fetch_subjects [s] ∅
      | Some c =>
          r ← fetch_section_list s c;
          ret {[ s := {[ c := r ]} ]}
      end
  | ArgList l => fetch_subjects l ∅
  | ArgNone | ArgTuple _ =>
      l ← fetch_subject_list;
      fetch_subjects l ∅
  end.

Definition fetch_all : M schedule := fetch ArgNone None.

End Transport.

End CourseFetcher.

(** ** A term's pages, for the examples

    A transport that answers every URL with a single line, the URL itself,
    and the handler calls [HTMLParser] makes for the three pages below;
    every other page has no markup of interest.  The section page is the
    one behind the example of the module's docstring. *)

Module Term2011.

Definition root : string := "http://courses.illinois.edu/cis/2011/spring/schedule/".

Definition urlopen (url : string) : result (list string) := Ok [url].

Definition label : attr_list := [("class", Some "ws-course-number")].

Definition cell (header : string) : attr_list :=
  [("headers", Some header); ("class", Some "ws-row")].

Definition pages : list (string * list callback) :=
  [ (root +:+ "index.html",
     [StartTag "div" label; Data "CS"; OtherCallback;
      StartTag "div" label; Data "MATH"; OtherCallback]);
    (root +:+ "CS/",
     [StartTag "div" label; Data "CS 493"; OtherCallback]);
    (root +:+ "CS/493.html",
     [StartTag "tr" [];
      StartTag "td" (cell "ws-crn"); Data "31260"; OtherCallback;
      StartTag "td" (cell "ws-type"); Data "lecture- discussion"; OtherCallback;
      StartTag "td" (cell "ws-section"); Data "CS"; OtherCallback;
      StartTag "td" (cell "ws-time"); Data "04:00 PM - 04:50 PM"; OtherCallback;
      StartTag "td" (cell "ws-days"); Data "W"; OtherCallback;
      StartTag "td" (cell "ws-location"); Data "room 1105";
      StartTag "br" []; OtherCallback; Data "Siebel Center for Comp Sci";
      OtherCallback;
      StartTag "td" (cell "ws-instructor"); Data "Woodley, M"; OtherCallback]) ].

Definition callbacks (lines : list string) : list callback :=
  match lines with
  | [url] =>
      match find (λ page, String.eqb page.1 url) pages with
      | Some page => page.2
      | None => []
      end
  | _ => []
  end.

(** The sections of CS 493 as the docstring prints them. *)
Definition cs_493 : section_map :=
  {[ 31260 :=
       {[ "section" := "CS"; "days" := "W";
          "location" := "room 1105, Siebel Center for Comp Sci";
          "time" := "04:00 PM - 04:50 PM";
          "instructor" := "Woodley, M";
          "type" := "lecture- discussion" ]} ]}.

(** [UIUCCourseFetcher(2011, 'Spring')], made in March 2011. *)
Definition fetcher : CourseFetcher.fetcher :=
  CourseFetcher.init 2011 3 (Some 2011) (Some "Spring").

End Term2011.

(** ** The program's entry point and notions for whole runs *)

(** [main()]: [f = UIUCCourseFetcher(); print f.fetch('art', 140)], run
    on the day [datetime.date.today()] is in [today_year], [today_month].
    The first component is what is printed, or the exception that ends
    the program; the second is the fetcher left behind. *)
Definition main (urlopen : string → result (list string))
    (callbacks : list string → list callback) (today_year today_month : Z)
  : result schedule * CourseFetcher.fetcher :=
  CourseFetcher.fetch urlopen callbacks (ArgStr "art") (Some (CInt 140))
    (CourseFetcher.init today_year today_month None None).

(** The short names under which the section scanner stores text: the
    headers other than [ws-crn], without their first three characters. *)
Definition section_fields : list string :=
  ["type"; "section"; "time"; "days"; "location"; "instructor"].

(** A start tag [td] whose [headers] attribute is one of the seven names
    and whose [class] attribute is missing or has no value. *)
Definition classless_header_cell (cb : callback) : bool :=
  match cb with
  | StartTag tag attrs =>
      bool_decide (PyStr.lower tag = "td")
      && SectionListParser.in_headers (dict_get (py_dict attrs) "headers")
      && bool_decide (dict_get (py_dict attrs) "class" = None)
  | _ => false
  end.

(** Every whitespace character of [s] is a space that does not follow
    another one; [after_space] tells that the character before [s] was a
    space (or that [s] starts the text), and the text does not end on
    one. *)
Fixpoint single_spaced (after_space : bool) (s : string) : bool :=
  match s with
  | EmptyString => negb after_space
  | String c s' =>
      if PyStr.isspace c
      then Ascii.eqb c " " && negb after_space && single_spaced true s'
      else single_spaced false s'
  end.

(** A text without whitespace at either end whose words are separated by
    single spaces; the empty text is one. *)
Definition normalised (s : string) : bool :=
  match s with
  | EmptyString => true
  | _ => single_spaced true s
  end.

(** The caches agree with the pages: a non-empty course list cached for a
    subject is what the subject's page parses to, and a non-empty section
    mapping cached for a course is what the course's page parses to. *)
Definition coherent (urlopen : string → result (list string))
    (callbacks : list string → list callback) (self : CourseFetcher.fetcher)
  : Prop :=
  (∀ subject courses,
     CourseFetcher.course_list self !! subject = Some courses →
     courses ≠ [] →
     CourseFetcher.read_page urlopen callbacks CourseListParser.class
       (CourseFetcher.urls_root self +:+ PyStr.upper subject +:+ "/")
     = Ok courses)
  ∧ (∀ subject of_subject course_no secs,
       CourseFetcher.section_list self !! subject = Some of_subject →
       of_subject !! course_no = Some secs →
       secs ≠ ∅ →
       CourseFetcher.read_page urlopen callbacks SectionListParser.class
         (CourseFetcher.urls_root self +:+ PyStr.upper subject +:+ "/"
          +:+ str_course course_no +:+ ".html")
       = Ok secs).

(** * Properties *)

(** ** Strings *)

Section PyStrFacts.
Import PyStr.

Lemma split_space_nonempty (s : string) : split_space s ≠ [].
Proof.
  destruct s as [|c s]; simpl; [done|].
  destruct (Ascii.eqb c " "); [done|].
  by destruct (split_space s).
Qed.

Lemma split_space_no_space (s : string) :
  no_space s = true → split_space s = [s].
Proof.
  induction s as [|c s IH]; simpl; [done|].
  intros [Hc Hs]%andb_prop.
  destruct (Ascii.eqb c " "); [done|].
  by rewrite (IH Hs).
Qed.

Lemma split_space_cut (a rest : string) :
  no_space a = true →
  split_space (a +:+ " " +:+ rest) = a :: split_space rest.
Proof.
  induction a as [|c a IH]; simpl; [done|].
  intros [Hc Ha]%andb_prop.
  destruct (Ascii.eqb c " "); [done|].
  by rewrite (IH Ha).
Qed.

Lemma split_space_second (a b : string) :
  no_space a = true → no_space b = true →
  split_space (a +:+ " " +:+ b) !! 1%nat = Some b.
Proof.
  intros Ha Hb. by rewrite (split_space_cut _ _ Ha), (split_space_no_space _ Hb).
Qed.

Lemma split_space_second_of_more (a b rest : string) :
  no_space a = true → no_space b = true →
  split_space (a +:+ " " +:+ b +:+ " " +:+ rest) !! 1%nat = Some b.
Proof.
  intros Ha Hb. by rewrite (split_space_cut _ _ Ha), (split_space_cut _ _ Hb).
Qed.

End PyStrFacts.

(** ** The list scanners *)

Section ListScannerFacts.

(** The subject and course scanners compare what [get] returned with
    [==]: a start tag never makes them raise, whatever attributes it
    lacks. *)
Lemma subject_starttag_total (self : SubjectListParser.state) tag attrs :
  ∃ self', SubjectListParser.handle_starttag self tag attrs = Ok self'
           ∧ SubjectListParser.subject_list self' = SubjectListParser.subject_list self.
Proof.
  unfold SubjectListParser.handle_starttag.
  destruct (_ && _); eauto.
Qed.

Lemma course_starttag_total (self : CourseListParser.state) tag attrs :
  ∃ self', CourseListParser.handle_starttag self tag attrs = Ok self'
           ∧ CourseListParser.course_no self' = CourseListParser.course_no self.
Proof.
  unfold CourseListParser.handle_starttag.
  destruct (_ && _); eauto.
Qed.

Import CourseListParser.

Lemma course_data_not_ready (self : state) data :
  ready self = false → handle_data self data = Ok self.
Proof. unfold handle_data. by intros ->. Qed.

(** C3, as amended.  While the marker is set, a datum that contains no
    space character makes [handle_data] raise [IndexError], and a datum
    with one makes it append the text between the first space and the
    next one (or the end). *)
Theorem course_data_appends_second_piece (self : state) :
  ready self = true →
  (∀ data, PyStr.no_space data = true →
     handle_data self data = Raise IndexError)
  ∧ (∀ a b, PyStr.no_space a = true → PyStr.no_space b = true →
       handle_data self (a +:+ " " +:+ b)
       = Ok {| course_no := course_no self ++ [b]; ready := true |})
  ∧ (∀ a b rest, PyStr.no_space a = true → PyStr.no_space b = true →
       handle_data self (a +:+ " " +:+ b +:+ " " +:+ rest)
       = Ok {| course_no := course_no self ++ [b]; ready := true |}).
Proof.
  intros Hready. unfold handle_data. rewrite Hready.
  split; [|split].
  - intros data Hdata. by rewrite (split_space_no_space _ Hdata).
  - intros a b Ha Hb. by rewrite (split_space_second _ _ Ha Hb).
  - intros a b rest Ha Hb. by rewrite (split_space_second_of_more _ _ _ Ha Hb).
Qed.

Lemma course_data_appends_second_piece_witness :
  ready {| course_no := ["101"]; ready := true |} = true
  ∧ PyStr.no_space "CS" = true ∧ PyStr.no_space "493" = true
  ∧ handle_data {| course_no := ["101"]; ready := true |} "CS 493"
    = Ok {| course_no := ["101"; "493"]; ready := true |}.
Proof.
  do 3 (split; [reflexivity|]).
  exact (proj1 (proj2 (course_data_appends_second_piece
                         {| course_no := ["101"]; ready := true |} eq_refl))
           "CS" "493" eq_refl eq_refl).
Defined.

(** C3 as the specification states it fails: the label [CS] has a single
    token, and the scanner does not skip it but raises. *)
Lemma course_data_single_token_raises :
  length (PyStr.tokens "CS") = 1%nat
  ∧ handle_data {| course_no := []; ready := true |} "CS" = Raise IndexError.
Proof. split; reflexivity. Qed.

(** The split is on single spaces, not on whitespace: with two spaces
    between the tokens the piece appended is empty, and a tab does not
    separate at all. *)
Lemma course_data_double_space :
  PyStr.tokens "CS  101" = ["CS"; "101"]
  ∧ handle_data {| course_no := []; ready := true |} "CS  101"
    = Ok {| course_no := [""]; ready := true |}.
Proof. split; reflexivity. Qed.

End ListScannerFacts.

(** ** The section scanner *)

Section SectionScannerFacts.
Import SectionListParser.

Lemma field_names :
  PyStr.slice_from 3 <$> headers
  = ["crn"; "type"; "section"; "time"; "days"; "location"; "instructor"].
Proof. reflexivity. Qed.

(** *** Start tags *)

(** [handle_starttag] raises exactly on a table cell whose [headers]
    attribute is recognised and whose [class] attribute is missing or has
    no value, and then with [AttributeError]. *)
Lemma section_starttag_raises_iff (self : state) tag attrs e :
  handle_starttag self tag attrs = Raise e
  ↔ e = AttributeError
    ∧ PyStr.lower tag = "td"
    ∧ in_headers (dict_get (py_dict attrs) "headers") = true
    ∧ dict_get (py_dict attrs) "class" = None.
Proof.
  unfold handle_starttag, is_row_cell, headers_and_class.
  split.
  - destruct (bool_decide (PyStr.lower tag = "br") && _); [done|].
    case_bool_decide as Htd; [|done].
    destruct (in_headers _); [|done].
    destruct (dict_get (py_dict attrs) "class") as [c|]; simpl.
    + by case_bool_decide.
    + by intros [= <-].
  - intros (-> & Htd & Hh & Hc).
    rewrite Htd, Hh, Hc. reflexivity.
Qed.

(** A start tag changes neither the records nor the current CRN. *)
Lemma section_starttag_frame (self self' : state) tag attrs :
  handle_starttag self tag attrs = Ok self' →
  sections self' = sections self ∧ current_crn self' = current_crn self.
Proof.
  unfold handle_starttag.
  destruct (_ && _); [by intros [= <-]|].
  destruct (is_row_cell tag _) as [[]|]; [| |done]; by intros [= <-].
Qed.

(** A line break in the location state is a no-operation. *)
Lemma br_in_location_is_noop (self : state) tag attrs :
  PyStr.lower tag = "br" →
  property_to_write self = Some "ws-location" →
  handle_starttag self tag attrs = Ok self.
Proof.
  intros Hbr Hloc. unfold handle_starttag.
  by rewrite !bool_decide_eq_true_2.
Qed.

(** A data cell selects its field. *)
Lemma row_cell_selects_field (self : state) tag attrs :
  is_row_cell tag (py_dict attrs) = Ok true →
  handle_starttag self tag attrs
  = Ok (set_property self (dict_get (py_dict attrs) "headers")).
Proof.
  intros Hcell. unfold handle_starttag. rewrite Hcell.
  assert (PyStr.lower tag = "td") as Htd.
  { unfold is_row_cell in Hcell. by case_bool_decide. }
  rewrite Htd. reflexivity.
Qed.

(** A start tag on which the cell test comes out false clears the active
    field, unless it is the line break of the lemma above. *)
Lemma unmatched_tag_clears_field (self : state) tag attrs :
  ¬ (PyStr.lower tag = "br" ∧ property_to_write self = Some "ws-location") →
  is_row_cell tag (py_dict attrs) = Ok false →
  handle_starttag self tag attrs = Ok (set_property self None).
Proof.
  intros Hbr Hcell. unfold handle_starttag. rewrite Hcell.
  destruct (bool_decide (PyStr.lower tag = "br")) eqn:H1;
    destruct (bool_decide (property_to_write self = Some "ws-location")) eqn:H2;
    try reflexivity.
  apply bool_decide_eq_true_1 in H1, H2. by destruct Hbr.
Qed.

(** A tag that is not a table cell never raises: the cell test is false. *)
Lemma not_a_cell (tag : string) attrs :
  PyStr.lower tag ≠ "td" → is_row_cell tag attrs = Ok false.
Proof. intros Htd. unfold is_row_cell. by rewrite bool_decide_eq_false_2. Qed.

(** C2.  The table cell [<td headers="ws-crn">], which has a recognised
    [headers] attribute and no [class] attribute, is not treated as no
    match: [handle_starttag] raises [AttributeError] on it in every
    state of the scanner. *)
Theorem section_starttag_without_class_raises (self : state) :
  handle_starttag self "td" [("headers", Some "ws-crn")] = Raise AttributeError.
Proof. by apply section_starttag_raises_iff. Qed.

(** C8.  With the location field active and a record open, the table cell
    [<td headers="ws-location">] is not a recognised data cell (it has no
    row class), yet it does not clear the active field: the call raises
    and yields no state. *)
Theorem section_starttag_unrecognised_cell_does_not_clear :
  let self := {| sections := {[ 31260 := ∅ ]};
                 current_crn := Some 31260;
                 property_to_write := Some "ws-location" |} in
  handle_starttag self "td" [("headers", Some "ws-location")]
  = Raise AttributeError
  ∧ handle_starttag self "td" [("headers", Some "ws-location")]
    ≠ Ok (set_property self None).
Proof. split; [reflexivity | discriminate]. Qed.

(** *** Text *)

(** The record invariant: it holds initially and every callback keeps
    it, so the subscript in [handle_data] finds its record. *)
Lemma init_has_record : crn_has_record init.
Proof. exact I. Qed.

Lemma dispatch_keeps_record (self self' : state) cb :
  crn_has_record self → dispatch class self cb = Ok self' → crn_has_record self'.
Proof.
  unfold crn_has_record. intros Hinv. destruct cb as [tag attrs|data|]; simpl.
  - intros [Hs Hc]%section_starttag_frame. by rewrite Hs, Hc.
  - unfold handle_data. case_bool_decide as Hcrn.
    + destruct (PyStr.int data) as [crn|]; intros [= <-]; simpl; [|done].
      rewrite lookup_insert_eq. eauto.
    + destruct (current_crn self) as [crn|] eqn:Hc; [|by intros [= <-]; rewrite Hc].
      destruct (property_to_write self) as [property|]; [|by intros [= <-]; rewrite Hc].
      case_bool_decide.
      * destruct (PyStr.int _) as [crn'|]; [|done]. intros [= <-]; simpl.
        rewrite lookup_insert_eq. eauto.
      * destruct (sections self !! crn) as [current_section|]; [|done].
        intros [= <-]; simpl. rewrite lookup_insert_eq. eauto.
  - by intros [= <-].
Qed.

Lemma run_keeps_record (cbs : list callback) (self self' : state) :
  crn_has_record self → run class self cbs = Ok self' → crn_has_record self'.
Proof.
  revert self. induction cbs as [|cb cbs IH]; intros self Hinv; simpl.
  - by intros [= <-].
  - destruct (dispatch class self cb) as [self1|] eqn:Hstep; [|done].
    apply IH. by eapply dispatch_keeps_record.
Qed.

(** Text is dropped while there is no current CRN and the field is not
    the crn field. *)
Lemma data_without_crn_dropped (self : state) data :
  current_crn self = None →
  property_to_write self ≠ Some "ws-crn" →
  handle_data self data = Ok self.
Proof.
  intros Hc Hp. unfold handle_data.
  by rewrite bool_decide_eq_false_2, Hc.
Qed.

(** Text is dropped while no field is active. *)
Lemma data_without_field_dropped (self : state) data :
  property_to_write self = None → handle_data self data = Ok self.
Proof.
  intros Hp. unfold handle_data. rewrite Hp. simpl.
  by destruct (current_crn self).
Qed.

Lemma no_crn_until_valid (cbs : list callback) (self self' : state) :
  current_crn self = None →
  no_valid_crn self cbs = true →
  run class self cbs = Ok self' →
  sections self' = sections self ∧ current_crn self' = None.
Proof.
  revert self. induction cbs as [|cb cbs IH]; intros self Hc; simpl.
  - by intros _ [= <-].
  - intros [Hcb Hrest]%andb_prop.
    destruct (dispatch class self cb) as [self1|] eqn:Hstep; [|done].
    intros Hrun.
    assert (sections self1 = sections self ∧ current_crn self1 = None) as [Hs1 Hc1].
    { destruct cb as [tag attrs|data|]; simpl in Hstep.
      - apply section_starttag_frame in Hstep as [-> ->]. done.
      - unfold handle_data in Hstep.
        destruct (bool_decide (property_to_write self = Some "ws-crn")); simpl in *.
        + destruct (PyStr.int data); [done|]. by injection Hstep as <-.
        + rewrite Hc in Hstep. by injection Hstep as <-.
      - by injection Hstep as <-. }
    destruct (IH self1 Hc1 Hrest Hrun) as [-> ->]. done.
Qed.

(** C5.  In the crn field state a datum that [int] accepts becomes the
    current CRN and gets a fresh empty record, replacing any record the
    CRN had and leaving the others alone; a datum that [int] rejects
    clears the current CRN, leaves the records as they are, and keeps
    them so through all later callbacks until a text in the crn field
    state is a valid numeral. *)
Theorem crn_text_opens_or_clears (self : state) (data : string) :
  property_to_write self = Some "ws-crn" →
  ∃ self', handle_data self data = Ok self'
    ∧ property_to_write self' = Some "ws-crn"
    ∧ match PyStr.int data with
      | Ok crn =>
          current_crn self' = Some crn
          ∧ sections self' !! crn = Some ∅
          ∧ ∀ other, other ≠ crn → sections self' !! other = sections self !! other
      | Raise _ =>
          current_crn self' = None
          ∧ sections self' = sections self
          ∧ ∀ cbs self'',
              no_valid_crn self' cbs = true →
              run class self' cbs = Ok self'' →
              sections self'' = sections self ∧ current_crn self'' = None
      end.
Proof.
  intros Hp. unfold handle_data. rewrite bool_decide_eq_true_2 by done.
  destruct (PyStr.int data) as [crn|e]; eexists; (split; [reflexivity|]); simpl.
  - split; [done|]. split; [done|]. split; [apply lookup_insert_eq|].
    intros other Hne. by apply lookup_insert_ne.
  - split; [done|]. split; [done|]. split; [done|].
    intros cbs self'' Hquiet Hrun.
    eapply no_crn_until_valid in Hrun; [exact Hrun | reflexivity | exact Hquiet].
Qed.

Lemma crn_text_opens_or_clears_witness :
  let self := {| sections := {[ 31260 := {[ "type" := "lecture" ]} ]};
                 current_crn := None;
                 property_to_write := Some "ws-crn" |} in
  property_to_write self = Some "ws-crn"
  ∧ ∃ self', handle_data self " 31260 " = Ok self'
      ∧ property_to_write self' = Some "ws-crn"
      ∧ current_crn self' = Some 31260
      ∧ sections self' !! 31260 = Some ∅
      ∧ ∀ other, other ≠ 31260 → sections self' !! other = sections self !! other.
Proof.
  intros self. split; [reflexivity|].
  exact (crn_text_opens_or_clears self " 31260 " eq_refl).
Defined.

(** C9.  In a field state other than crn, with a current CRN that has its
    record, a datum is normalised and written under the field's short
    name: as it is when the record has no value for the field, and after
    the old value and a comma and a space when it has one.  The other
    fields of the record and the other records are untouched. *)
Theorem field_text_is_appended (self : state) (data : string)
    (crn : Z) (property : string) (current_section : section_record) :
  current_crn self = Some crn →
  property_to_write self = Some property →
  property ≠ "ws-crn" →
  sections self !! crn = Some current_section →
  ∃ self' record,
    handle_data self data = Ok self'
    ∧ current_crn self' = Some crn
    ∧ property_to_write self' = Some property
    ∧ (∀ other, other ≠ crn → sections self' !! other = sections self !! other)
    ∧ sections self' !! crn = Some record
    ∧ (∀ field, field ≠ PyStr.slice_from 3 property →
         record !! field = current_section !! field)
    ∧ record !! PyStr.slice_from 3 property
      = Some match current_section !! PyStr.slice_from 3 property with
             | None => clean data
             | Some old => old +:+ ", " +:+ clean data
             end.
Proof.
  intros Hc Hp Hne Hrec. unfold handle_data.
  rewrite bool_decide_eq_false_2 by (rewrite Hp; congruence).
  rewrite Hc, Hp, bool_decide_eq_false_2, Hrec by done.
  eexists _, _. split; [reflexivity|]. simpl.
  split; [done|]. split; [done|].
  split; [intros other Hother; by apply lookup_insert_ne|].
  split; [apply lookup_insert_eq|].
  split; [intros field Hfield; by apply lookup_insert_ne|].
  apply lookup_insert_eq.
Qed.

Lemma field_text_is_appended_witness :
  let self := {| sections := {[ 31260 := {[ "instructor" := "Woodley, M" ]} ]};
                 current_crn := Some 31260;
                 property_to_write := Some "ws-instructor" |} in
  current_crn self = Some 31260
  ∧ property_to_write self = Some "ws-instructor"
  ∧ "ws-instructor" ≠ "ws-crn"
  ∧ sections self !! 31260 = Some {[ "instructor" := "Woodley, M" ]}
  ∧ ∃ self' record,
      handle_data self "  Smith,   J " = Ok self'
      ∧ sections self' !! 31260 = Some record
      ∧ record !! "instructor" = Some "Woodley, M, Smith, J".
Proof.
  intros self.
  assert ("ws-instructor" ≠ "ws-crn") as Hne by discriminate.
  do 4 (split; [first [reflexivity | exact Hne]|]).
  destruct (field_text_is_appended self "  Smith,   J " 31260 "ws-instructor"
              {[ "instructor" := "Woodley, M" ]} eq_refl eq_refl Hne eq_refl)
    as (self' & record & H1 & _ & _ & _ & H2 & _ & H3).
  exists self', record. split; [exact H1|]. split; [exact H2|]. exact H3.
Defined.

(** Text before and after a line break in the location state ends up in
    one comma-joined location value. *)
Lemma br_joins_location_text (self : state) (before after : string) tag attrs
    (crn : Z) (current_section : section_record) :
  PyStr.lower tag = "br" →
  current_crn self = Some crn →
  property_to_write self = Some "ws-location" →
  sections self !! crn = Some current_section →
  current_section !! "location" = None →
  run class self [Data before; StartTag tag attrs; Data after]
  = Ok {| sections :=
            <[crn := <["location" := clean before +:+ ", " +:+ clean after]>
                       current_section]> (sections self);
          current_crn := Some crn;
          property_to_write := Some "ws-location" |}.
Proof.
  intros Hbr Hc Hp Hrec Hloc.
  change (run class self [Data before; StartTag tag attrs; Data after])
    with (match handle_data self before with
          | Ok s1 =>
              match handle_starttag s1 tag attrs with
              | Ok s2 =>
                  match handle_data s2 after with
                  | Ok s3 => Ok s3
                  | Raise e => Raise e
                  end
              | Raise e => Raise e
              end
          | Raise e => Raise e
          end).
  unfold handle_data at 1.
  rewrite Hp, Hc, Hrec. simpl. rewrite Hloc.
  rewrite br_in_location_is_noop by done.
  unfold handle_data. simpl.
  rewrite !lookup_insert_eq, !insert_insert_eq. reflexivity.
Qed.

End SectionScannerFacts.

(** ** The fetcher *)

Section InitFacts.
Import CourseFetcher.

(** The test that guards the month branch holds for every argument: a
    string different from [spring] passes the first disjunct, and
    [spring] itself passes the second. *)
Lemma term_rejected_always (term : option string) : term_rejected term = true.
Proof.
  destruct term as [t|]; simpl; [|done].
  destruct (decide (t = "spring")) as [->|Hne]; [reflexivity|].
  by rewrite (bool_decide_eq_false_2 _ Hne).
Qed.

Lemma resolve_term_is_month (today_month : Z) (term : option string) :
  resolve_term today_month term = term_of_month today_month.
Proof. unfold resolve_term. by rewrite term_rejected_always. Qed.

(** C1.  Whatever term is passed to the constructor, the validity test
    rejects it (after lowercasing), and the root and portal URLs carry the
    term of the current month: spring before May, summer before August,
    fall otherwise.  The fetcher built is the one built without a term. *)
Theorem init_ignores_term (today_year today_month : Z)
    (year : option Z) (term : string) :
  let month_term :=
    if today_month <? 5 then "spring"
    else if today_month <? 8 then "summer"
    else "fall" in
  let self := init today_year today_month year (Some term) in
  term_rejected (Some (PyStr.lower term)) = true
  ∧ urls_root self
    = "http://courses.illinois.edu/cis/" +:+ PyStr.str (default today_year year)
      +:+ "/" +:+ month_term +:+ "/schedule/"
  ∧ urls_portal self
    = "http://courses.illinois.edu/cis/" +:+ PyStr.str (default today_year year)
      +:+ "/" +:+ month_term +:+ "/schedule/index.html"
  ∧ self = init today_year today_month year None.
Proof.
  split; [apply term_rejected_always|].
  unfold init. rewrite !resolve_term_is_month. done.
Qed.

(** Asked for spring 2011 in November 2026, the fetcher reads the fall
    pages of 2011. *)
Lemma init_in_november :
  urls_root (init 2026 11 (Some 2011) (Some "Spring"))
  = "http://courses.illinois.edu/cis/2011/fall/schedule/".
Proof. reflexivity. Qed.

End InitFacts.

Section FetcherFacts.
Import CourseFetcher.

Variable urlopen : string → result (list string).
Variable callbacks : list string → list callback.

Local Abbreviation read_page := (read_page urlopen callbacks).
Local Abbreviation fetch_subject_list := (fetch_subject_list urlopen callbacks).
Local Abbreviation fetch_course_list := (fetch_course_list urlopen callbacks).
Local Abbreviation fetch_section_list := (fetch_section_list urlopen callbacks).
Local Abbreviation fetch := (fetch urlopen callbacks).

Ltac step_monad :=
  unfold mbind, M_bind, bind, get, modify, ret, raise, subscript; simpl.

(** *** What each method computes *)

Lemma fetch_subject_list_eval (self : fetcher) :
  fetch_subject_list self
  = match subject_list self with
    | Some l => (Ok l, self)
    | None =>
        let logged := log_request (UIUCSubjectListParser, urls_portal self) self in
        match read_page SubjectListParser.class (urls_portal self) with
        | Ok r => (Ok r, set_subject_list (Some r) logged)
        | Raise e => (Raise e, logged)
        end
    end.
Proof.
  unfold CourseFetcher.fetch_subject_list, parse_url. step_monad.
  destruct (subject_list self); [done|].
  by destruct (read_page _ _).
Qed.

Lemma fetch_course_list_eval (subject : string) (self : fetcher) :
  fetch_course_list subject self
  = match course_list self !! subject with
    | Some (c :: cs) => (Ok (c :: cs), self)
    | _ =>
        let url := urls_root self +:+ PyStr.upper subject +:+ "/" in
        let logged := log_request (UIUCCourseListParser, url) self in
        match read_page CourseListParser.class url with
        | Ok r => (Ok r, set_course_list (<[subject := r]> (course_list self)) logged)
        | Raise e => (Raise e, logged)
        end
    end.
Proof.
  unfold CourseFetcher.fetch_course_list, parse_url. step_monad.
  destruct (course_list self !! subject) as [[|c cs]|] eqn:Hget; simpl;
    try (destruct (read_page _ _); simpl; [by rewrite lookup_insert_eq|done]).
  by rewrite Hget.
Qed.

(** The dictionary [self.section_list] after the first statement of
    [fetch_section_list]. *)
Local Abbreviation with_subject self subject :=
  (if truthy_dict (section_list self !! subject) then self
   else set_section_list (<[subject := ∅]> (section_list self)) self).

Lemma with_subject_lookup (self : fetcher) (subject : string) :
  ∃ of_subject,
    section_list (with_subject self subject) !! subject = Some of_subject
    ∧ ∀ course_no,
        of_subject !! course_no
        = match section_list self !! subject with
          | Some m => m !! course_no
          | None => None
          end.
Proof.
  destruct (section_list self !! subject) as [m|] eqn:Hget; simpl.
  - case_bool_decide as Hm; simpl.
    + exists ∅. by rewrite lookup_insert_eq, Hm.
    + exists m. by rewrite Hget.
  - exists ∅. by rewrite lookup_insert_eq.
Qed.

Lemma with_subject_frame (self : fetcher) (subject : string) :
  requests (with_subject self subject) = requests self
  ∧ urls_root (with_subject self subject) = urls_root self
  ∧ ∀ other, other ≠ subject →
      section_list (with_subject self subject) !! other
      = section_list self !! other.
Proof.
  destruct (truthy_dict (section_list self !! subject)); [done|].
  split; [done|]. split; [done|].
  intros other Hother. simpl. by rewrite lookup_insert_ne.
Qed.

Lemma fetch_section_list_eval (subject : string) (course_no : course_key)
    (self : fetcher) :
  let self1 := with_subject self subject in
  let of_subject := default ∅ (section_list self1 !! subject) in
  fetch_section_list subject course_no self
  = if truthy_dict (of_subject !! course_no)
    then (Ok (default ∅ (of_subject !! course_no)), self1)
    else
      let url := urls_root self +:+ PyStr.upper subject +:+ "/"
                 +:+ str_course course_no +:+ ".html" in
      let logged := log_request (UIUCSectionListParser, url) self1 in
      match read_page SectionListParser.class url with
      | Ok r =>
          (Ok r,
           set_section_list
             (<[subject := <[course_no := r]> of_subject]> (section_list self1))
             logged)
      | Raise e => (Raise e, logged)
      end.
Proof.
  destruct (with_subject_lookup self subject) as (of_subject & Hsub & _).
  unfold CourseFetcher.fetch_section_list, parse_url. step_monad.
  assert (urls_root (with_subject self subject) = urls_root self) as Hroot
    by (by destruct (truthy_dict _)).
  destruct (truthy_dict (section_list self !! subject)); simpl in *;
    rewrite Hsub; simpl.
  all: destruct (truthy_dict (of_subject !! course_no)) eqn:Htruthy; simpl.
  all: try (destruct (read_page _ _); simpl).
  all: repeat (step_monad; rewrite ?Hsub, ?lookup_insert_eq).
  all: try done.
  all: by destruct (of_subject !! course_no).
Qed.

(** *** One request or two *)

Lemma then_eval {A B} (m : M A) (k : M B) (self : fetcher) :
  (m ;; k) self
  = match m self with
    | (Ok _, self') => k self'
    | (Raise e, self') => (Raise e, self')
    end.
Proof. reflexivity. Qed.

(** The subject list is tested with [== None]: once fetched it is served
    from the cache, empty or not. *)
Lemma subject_list_fetched_once (self : fetcher) (r : list string) :
  subject_list self = None →
  read_page SubjectListParser.class (urls_portal self) = Ok r →
  let out := (fetch_subject_list ;; fetch_subject_list) self in
  out.1 = Ok r
  ∧ requests out.2 = requests self ++ [(UIUCSubjectListParser, urls_portal self)].
Proof.
  intros Hnone Hpage. simpl.
  rewrite then_eval, fetch_subject_list_eval, Hnone. simpl. rewrite Hpage.
  by rewrite fetch_subject_list_eval.
Qed.

(** The course list is tested for truth: a list with a course in it is
    served from the cache the second time, ... *)
Lemma course_list_fetched_once (self : fetcher) (subject c : string)
    (cs : list string) :
  let url := urls_root self +:+ PyStr.upper subject +:+ "/" in
  truthy_list (course_list self !! subject) = false →
  read_page CourseListParser.class url = Ok (c :: cs) →
  let out := (fetch_course_list subject ;; fetch_course_list subject) self in
  out.1 = Ok (c :: cs)
  ∧ requests out.2 = requests self ++ [(UIUCCourseListParser, url)].
Proof.
  intros url Hmiss Hpage. simpl.
  rewrite then_eval, fetch_course_list_eval.
  destruct (course_list self !! subject) as [[|c' cs']|]; [|done|]; simpl;
    fold url; rewrite Hpage, fetch_course_list_eval; simpl;
    by rewrite lookup_insert_eq.
Qed.

(** ... and an empty one is requested again. *)
Lemma course_list_empty_fetched_again (self : fetcher) (subject : string) :
  let url := urls_root self +:+ PyStr.upper subject +:+ "/" in
  truthy_list (course_list self !! subject) = false →
  read_page CourseListParser.class url = Ok [] →
  let out := (fetch_course_list subject ;; fetch_course_list subject) self in
  out.1 = Ok []
  ∧ requests out.2
    = requests self ++ [(UIUCCourseListParser, url); (UIUCCourseListParser, url)].
Proof.
  intros url Hmiss Hpage. simpl.
  rewrite then_eval, fetch_course_list_eval.
  destruct (course_list self !! subject) as [[|c' cs']|]; [|done|]; simpl;
    fold url; rewrite Hpage, fetch_course_list_eval; simpl;
    rewrite lookup_insert_eq; fold url; rewrite Hpage; simpl;
    by rewrite <- app_assoc.
Qed.

(** What the cache holds for a subject and a course. *)
Local Abbreviation cached_sections self subject course_no :=
  (match section_list self !! subject with
   | Some of_subject => of_subject !! course_no
   | None => None
   end).

Lemma fetch_section_list_hit (self : fetcher) (subject : string)
    (course_no : course_key) (r : section_map) :
  cached_sections self subject course_no = Some r → r ≠ ∅ →
  fetch_section_list subject course_no self = (Ok r, self).
Proof.
  intros Hget Hr. rewrite fetch_section_list_eval.
  destruct (section_list self !! subject) as [m|] eqn:Hm; [|done]. simpl.
  assert (m ≠ ∅) as Hne by (intros ->; by rewrite lookup_empty in Hget).
  rewrite (bool_decide_eq_false_2 _ Hne). simpl.
  rewrite Hm. simpl. rewrite Hget. simpl.
  by rewrite (bool_decide_eq_false_2 _ Hr).
Qed.

Lemma fetch_section_list_miss (self : fetcher) (subject : string)
    (course_no : course_key) :
  let url := urls_root self +:+ PyStr.upper subject +:+ "/"
             +:+ str_course course_no +:+ ".html" in
  let logged := log_request (UIUCSectionListParser, url) self in
  truthy_dict (cached_sections self subject course_no) = false →
  ∃ of_subject,
    (∀ c, of_subject !! c = cached_sections self subject c)
    ∧ fetch_section_list subject course_no self
      = match read_page SectionListParser.class url with
        | Ok r =>
            (Ok r,
             set_section_list
               (<[subject := <[course_no := r]> of_subject]> (section_list self))
               logged)
        | Raise e =>
            (Raise e,
             set_section_list (<[subject := of_subject]> (section_list self)) logged)
        end.
Proof.
  intros url logged Hmiss.
  destruct (with_subject_lookup self subject) as (of_subject & Hsub & Hcourse).
  exists of_subject. split; [done|].
  rewrite fetch_section_list_eval. cbv zeta.
  rewrite Hsub. cbn [default from_option id]. rewrite Hcourse, Hmiss.
  fold url.
  destruct (truthy_dict (section_list self !! subject)) eqn:Htruthy.
  - fold logged. destruct (read_page _ _); [done|].
    rewrite (insert_id _ _ _ Hsub). by destruct self.
  - simpl in Hsub. rewrite lookup_insert_eq in Hsub. injection Hsub as <-.
    destruct (read_page _ _); unfold set_section_list, log_request; simpl;
      by rewrite ?insert_insert_eq.
Qed.

Lemma section_list_fetched_once (self : fetcher) (subject : string)
    (course_no : course_key) (r : section_map) :
  let url := urls_root self +:+ PyStr.upper subject +:+ "/"
             +:+ str_course course_no +:+ ".html" in
  truthy_dict (cached_sections self subject course_no) = false →
  read_page SectionListParser.class url = Ok r → r ≠ ∅ →
  let out := (fetch_section_list subject course_no ;;
              fetch_section_list subject course_no) self in
  out.1 = Ok r
  ∧ requests out.2 = requests self ++ [(UIUCSectionListParser, url)].
Proof.
  intros url Hmiss Hpage Hr. cbv zeta.
  destruct (fetch_section_list_miss self subject course_no Hmiss)
    as (of_subject & _ & Heval).
  fold url in Heval. rewrite Hpage in Heval.
  rewrite then_eval, Heval.
  rewrite (fetch_section_list_hit _ _ _ r); [done| |done].
  simpl. by rewrite !lookup_insert_eq.
Qed.

Lemma section_list_empty_fetched_again (self : fetcher) (subject : string)
    (course_no : course_key) :
  let url := urls_root self +:+ PyStr.upper subject +:+ "/"
             +:+ str_course course_no +:+ ".html" in
  truthy_dict (cached_sections self subject course_no) = false →
  read_page SectionListParser.class url = Ok ∅ →
  let out := (fetch_section_list subject course_no ;;
              fetch_section_list subject course_no) self in
  out.1 = Ok ∅
  ∧ requests out.2
    = requests self ++ [(UIUCSectionListParser, url); (UIUCSectionListParser, url)].
Proof.
  intros url Hmiss Hpage. cbv zeta.
  destruct (fetch_section_list_miss self subject course_no Hmiss)
    as (of_subject & _ & Heval).
  fold url in Heval. rewrite Hpage in Heval.
  rewrite then_eval, Heval.
  match goal with |- context [fetch_section_list _ _ ?s] => set (self2 := s) end.
  assert (truthy_dict (cached_sections self2 subject course_no) = false) as Hmiss2.
  { unfold self2. simpl. by rewrite !lookup_insert_eq. }
  destruct (fetch_section_list_miss self2 subject course_no Hmiss2)
    as (of_subject2 & _ & Heval2).
  change (urls_root self2) with (urls_root self) in Heval2.
  fold url in Heval2. rewrite Hpage in Heval2.
  rewrite Heval2. simpl. by rewrite <- app_assoc.
Qed.

(** After [flush()] every fetch goes to the transport again. *)
Lemma flush_then_fetch (self : fetcher) (subject : string) (course_no : course_key) :
  requests ((flush ;; fetch_subject_list) self).2
  = requests self ++ [(UIUCSubjectListParser, urls_portal self)]
  ∧ requests ((flush ;; fetch_course_list subject) self).2
    = requests self
      ++ [(UIUCCourseListParser, urls_root self +:+ PyStr.upper subject +:+ "/")]
  ∧ requests ((flush ;; fetch_section_list subject course_no) self).2
    = requests self
      ++ [(UIUCSectionListParser,
           urls_root self +:+ PyStr.upper subject +:+ "/"
           +:+ str_course course_no +:+ ".html")].
Proof.
  rewrite !then_eval. unfold flush, modify.
  rewrite fetch_subject_list_eval, fetch_course_list_eval. simpl.
  rewrite lookup_empty.
  split; [by destruct (read_page _ _)|].
  split; [by destruct (read_page _ _)|].
  destruct (fetch_section_list_miss (flush_state self) subject course_no)
    as (of_subject & _ & ->); [done|].
  simpl. by destruct (read_page _ _).
Qed.

(** *** One course *)

(** C7.  [fetch(subject, course_no)] with a string and a course number
    returns the one-entry mapping around what [fetch_section_list]
    returns: the cached sections when the cache holds a non-empty mapping
    for the pair, without any request; otherwise the sections read from
    the course page, after the one request for that page.  No request is
    made for the subject list parser or the course list parser. *)
Theorem fetch_single_course (self : fetcher) (subject : string)
    (course_no : course_key) :
  let url := urls_root self +:+ PyStr.upper subject +:+ "/"
             +:+ str_course course_no +:+ ".html" in
  let cached := cached_sections self subject course_no in
  let out := fetch (ArgStr subject) (Some course_no) self in
  (if truthy_dict cached
   then out.1 = Ok {[ subject := {[ course_no := default ∅ cached ]} ]}
        ∧ requests out.2 = requests self
   else out.1 = match read_page SectionListParser.class url with
                | Ok r => Ok {[ subject := {[ course_no := r ]} ]}
                | Raise e => Raise e
                end
        ∧ requests out.2 = requests self ++ [(UIUCSectionListParser, url)])
  ∧ ∃ new, requests out.2 = requests self ++ new
           ∧ (length new ≤ 1)%nat
           ∧ Forall (λ request, request.1 = UIUCSectionListParser) new.
Proof.
  intros url cached out.
  assert (out = match fetch_section_list subject course_no self with
                | (Ok r, self') => (Ok {[ subject := {[ course_no := r ]} ]}, self')
                | (Raise e, self') => (Raise e, self')
                end) as Hout by reflexivity.
  destruct (truthy_dict cached) eqn:Htruthy.
  - destruct cached as [r|] eqn:Hcached; [|done].
    assert (r ≠ ∅) as Hr by (simpl in Htruthy; by case_bool_decide).
    rewrite (fetch_section_list_hit self subject course_no r Hcached Hr) in Hout.
    rewrite Hout. simpl. split; [done|].
    exists []. rewrite app_nil_r. split; [done|]. split; [simpl; lia|constructor].
  - destruct (fetch_section_list_miss self subject course_no Htruthy)
      as (of_subject & _ & Heval).
    fold url in Heval. rewrite Heval in Hout.
    assert (out.1 = match read_page SectionListParser.class url with
                    | Ok r => Ok {[ subject := {[ course_no := r ]} ]}
                    | Raise e => Raise e
                    end
            ∧ requests out.2 = requests self ++ [(UIUCSectionListParser, url)])
      as [Hresult Hrequests].
    { rewrite Hout. by destruct (read_page _ _). }
    split; [done|].
    exists [(UIUCSectionListParser, url)].
    split; [done|]. split; [simpl; lia|]. by repeat constructor.
Qed.

(** *** Letter case of the subject *)

(** C10.  Two subjects that differ but have the same uppercase form, none
    of them in the caches: fetching the course list of one and then of
    the other requests the same URL, built from the uppercase form,
    twice, and leaves one cache entry under each spelling; the same for
    the section list of a course. *)
Theorem subject_case_splits_cache (self : fetcher) (s1 s2 : string)
    (course_no : course_key) (courses : list string) (secs : section_map) :
  let courses_url := urls_root self +:+ PyStr.upper s1 +:+ "/" in
  let sections_url := urls_root self +:+ PyStr.upper s1 +:+ "/"
                      +:+ str_course course_no +:+ ".html" in
  s1 ≠ s2 →
  PyStr.upper s1 = PyStr.upper s2 →
  course_list self !! s1 = None → course_list self !! s2 = None →
  section_list self !! s1 = None → section_list self !! s2 = None →
  read_page CourseListParser.class courses_url = Ok courses →
  read_page SectionListParser.class sections_url = Ok secs →
  let out1 := (fetch_course_list s1 ;; fetch_course_list s2) self in
  let out2 := (fetch_section_list s1 course_no ;;
               fetch_section_list s2 course_no) self in
  (out1.1 = Ok courses
   ∧ requests out1.2
     = requests self ++ [(UIUCCourseListParser, courses_url);
                         (UIUCCourseListParser, courses_url)]
   ∧ course_list out1.2
     = <[s2 := courses]> (<[s1 := courses]> (course_list self)))
  ∧ (out2.1 = Ok secs
     ∧ requests out2.2
       = requests self ++ [(UIUCSectionListParser, sections_url);
                           (UIUCSectionListParser, sections_url)]
     ∧ section_list out2.2
       = <[s2 := {[ course_no := secs ]}]>
           (<[s1 := {[ course_no := secs ]}]> (section_list self))).
Proof.
  intros courses_url sections_url Hne Hupper Hc1 Hc2 Hs1 Hs2 Hcourses Hsecs.
  cbv zeta. split.
  - rewrite then_eval, fetch_course_list_eval, Hc1. cbv zeta.
    fold courses_url. rewrite Hcourses.
    rewrite fetch_course_list_eval. simpl.
    rewrite lookup_insert_ne, Hc2 by done.
    rewrite <- Hupper. fold courses_url. rewrite Hcourses. simpl.
    by rewrite <- app_assoc.
  - assert (∀ (of_subject : gmap course_key section_map),
              (∀ c, of_subject !! c = None) → of_subject = ∅) as Hempty.
    { intros of_subject Hnone. apply map_eq. intros c.
      by rewrite Hnone, lookup_empty. }
    destruct (fetch_section_list_miss self s1 course_no) as (of1 & Hof1 & Heval1).
    { by rewrite Hs1. }
    rewrite Hs1 in Hof1. apply Hempty in Hof1 as ->.
    fold sections_url in Heval1. rewrite Hsecs in Heval1.
    rewrite then_eval, Heval1.
    match goal with |- context [fetch_section_list _ _ ?s] => set (self2 := s) end.
    assert (section_list self2 !! s2 = None) as Hs2'.
    { unfold self2. simpl. by rewrite lookup_insert_ne. }
    destruct (fetch_section_list_miss self2 s2 course_no) as (of2 & Hof2 & Heval2).
    { by rewrite Hs2'. }
    rewrite Hs2' in Hof2. apply Hempty in Hof2 as ->.
    change (urls_root self2) with (urls_root self) in Heval2.
    rewrite <- Hupper in Heval2. fold sections_url in Heval2.
    rewrite Hsecs in Heval2. rewrite Heval2. simpl.
    by rewrite <- app_assoc.
Qed.

(** *** A list of subjects *)

(** The requests a call adds are never for the subject list parser. *)
Local Abbreviation adds_no_portal_request self self' :=
  (∃ new, requests self' = requests self ++ new
          ∧ Forall (λ request, request.1 ≠ UIUCSubjectListParser) new).

Lemma adds_no_portal_request_refl (self : fetcher) :
  adds_no_portal_request self self.
Proof. exists []. by rewrite app_nil_r. Qed.

Lemma adds_no_portal_request_trans (self1 self2 self3 : fetcher) :
  adds_no_portal_request self1 self2 →
  adds_no_portal_request self2 self3 →
  adds_no_portal_request self1 self3.
Proof.
  intros (new1 & H1 & Hall1) (new2 & H2 & Hall2).
  exists (new1 ++ new2). rewrite H2, H1, app_assoc. split; [done|].
  by apply Forall_app.
Qed.

Lemma fetch_course_list_requests (subject : string) (self self' : fetcher) r :
  fetch_course_list subject self = (r, self') →
  adds_no_portal_request self self'.
Proof.
  rewrite fetch_course_list_eval.
  assert (adds_no_portal_request self
            (log_request
               (UIUCCourseListParser, urls_root self +:+ PyStr.upper subject +:+ "/")
               self)) as Hlog.
  { eexists. split; [reflexivity|]. by repeat constructor. }
  destruct (course_list self !! subject) as [[|c cs]|]; cbv zeta;
    try (destruct (read_page _ _); intros [= _ <-]; exact Hlog).
  intros [= _ <-]. apply adds_no_portal_request_refl.
Qed.

Lemma fetch_section_list_requests (subject : string) (course_no : course_key)
    (self self' : fetcher) r :
  fetch_section_list subject course_no self = (r, self') →
  adds_no_portal_request self self'.
Proof.
  rewrite fetch_section_list_eval. cbv zeta.
  destruct (truthy_dict (section_list self !! subject));
    (destruct (truthy_dict (default ∅ _ !! course_no));
     [ intros [= _ <-]; exists []; by rewrite app_nil_r
     | destruct (read_page _ _); intros [= _ <-];
       (eexists; split; [simpl; reflexivity | by repeat constructor]) ]).
Qed.

Lemma fetch_courses_spec (subject : string) (courses : list string)
    (acc m : gmap course_key section_map) (self self' : fetcher) :
  fetch_courses urlopen callbacks subject courses acc self = (Ok m, self') →
  (∀ k, is_Some (m !! k) ↔ (∃ c, k = CStr c ∧ c ∈ courses) ∨ is_Some (acc !! k))
  ∧ adds_no_portal_request self self'.
Proof.
  revert acc self. induction courses as [|c courses IH]; intros acc self; simpl.
  - intros [= <- <-]. split; [|apply adds_no_portal_request_refl].
    intros k. split; [by right|]. intros [(c & _ & Hc)|]; [|done].
    by apply not_elem_of_nil in Hc.
  - unfold mbind, M_bind, bind.
    destruct (fetch_section_list subject (CStr c) self) as [[r|e] self1] eqn:Hcall;
      [|done].
    intros [Hkeys Hreq]%IH. split.
    + intros k. rewrite Hkeys. split.
      * intros [(c' & -> & Hc')|Hacc].
        -- left. exists c'. split; [done|]. by right.
        -- destruct (decide (k = CStr c)) as [->|Hne].
           ++ left. exists c. split; [done|]. by left.
           ++ right. by rewrite lookup_insert_ne in Hacc.
      * intros [(c' & -> & Hc')|Hacc].
        -- apply elem_of_cons in Hc' as [->|Hc'].
           ++ right. rewrite lookup_insert_eq. eauto.
           ++ left. eauto.
        -- right. destruct (decide (CStr c = k)) as [<-|Hne].
           ++ rewrite lookup_insert_eq. eauto.
           ++ by rewrite lookup_insert_ne.
    + eapply adds_no_portal_request_trans; [|exact Hreq].
      by eapply fetch_section_list_requests.
Qed.

Lemma fetch_subjects_spec (subjects : list string) (acc m : schedule)
    (self self' : fetcher) :
  fetch_subjects urlopen callbacks subjects acc self = (Ok m, self') →
  (∀ s, is_Some (m !! s) ↔ s ∈ subjects ∨ is_Some (acc !! s))
  ∧ adds_no_portal_request self self'.
Proof.
  revert acc self. induction subjects as [|s subjects IH]; intros acc self; simpl.
  - intros [= <- <-]. split; [|apply adds_no_portal_request_refl].
    intros k. split; [by right|]. intros [Hs|]; [|done].
    by apply not_elem_of_nil in Hs.
  - unfold mbind, M_bind, bind.
    destruct (fetch_course_list s self) as [[courses|e] self1] eqn:Hcourses; [|done].
    destruct (fetch_courses _ _ s courses ∅ self1) as [[of_subject|e] self2]
      eqn:Hsections; [|done].
    intros [Hkeys Hreq]%IH. split.
    + intros k. rewrite Hkeys. split.
      * intros [Hk|Hacc]; [left; by right|].
        destruct (decide (k = s)) as [->|Hne]; [left; by left|].
        right. by rewrite lookup_insert_ne in Hacc.
      * intros [Hk|Hacc].
        -- apply elem_of_cons in Hk as [->|Hk]; [|by left].
           right. rewrite lookup_insert_eq. eauto.
        -- right. destruct (decide (s = k)) as [<-|Hne].
           ++ rewrite lookup_insert_eq. eauto.
           ++ by rewrite lookup_insert_ne.
    + eapply adds_no_portal_request_trans; [by eapply fetch_course_list_requests|].
      eapply adds_no_portal_request_trans; [|exact Hreq].
      by eapply fetch_courses_spec.
Qed.

(** With a list of subjects [fetch] ignores the course number, returns an
    entry for the subjects of the list and for no other, and does not ask
    for the subject list. *)
Lemma fetch_list_keeps_to_subjects (subjects : list string)
    (course_no : option course_key) (m : schedule) (self self' : fetcher) :
  fetch (ArgList subjects) course_no self = (Ok m, self') →
  fetch (ArgList subjects) course_no self = fetch (ArgList subjects) None self
  ∧ (∀ s, is_Some (m !! s) ↔ s ∈ subjects)
  ∧ adds_no_portal_request self self'.
Proof.
  intros Hfetch. split; [done|].
  apply fetch_subjects_spec in Hfetch as [Hkeys Hreq]. split; [|done].
  intros s. rewrite Hkeys. split; [|by left].
  intros [Hs|Hempty]; [done|]. rewrite lookup_empty in Hempty. by destruct Hempty.
Qed.

End FetcherFacts.

(** ** The pages of spring 2011 *)

Section Term2011Facts.
Import CourseFetcher.

Local Abbreviation read_page := (read_page Term2011.urlopen Term2011.callbacks).
Local Abbreviation fetch_course_list :=
  (fetch_course_list Term2011.urlopen Term2011.callbacks).
Local Abbreviation fetch_section_list :=
  (fetch_section_list Term2011.urlopen Term2011.callbacks).
Local Abbreviation fetch := (fetch Term2011.urlopen Term2011.callbacks).

(** The example of the module's docstring. *)
Lemma fetch_cs_493 :
  (fetch (ArgStr "CS") (Some (CInt 493)) Term2011.fetcher).1
  = Ok {[ "CS" := {[ CInt 493 := Term2011.cs_493 ]} ]}.
Proof. reflexivity. Qed.

Lemma subject_case_splits_cache_witness :
  let self := Term2011.fetcher in
  let out1 := (fetch_course_list "cs" ;; fetch_course_list "CS") self in
  let out2 := (fetch_section_list "cs" (CInt 493) ;;
               fetch_section_list "CS" (CInt 493)) self in
  ("cs" : string) ≠ "CS"
  ∧ PyStr.upper "cs" = PyStr.upper "CS"
  ∧ requests out1.2
    = [(UIUCCourseListParser, Term2011.root +:+ "CS/");
       (UIUCCourseListParser, Term2011.root +:+ "CS/")]
  ∧ course_list out1.2 = <["CS" := ["493"]]> (<["cs" := ["493"]]> ∅)
  ∧ requests out2.2
    = [(UIUCSectionListParser, Term2011.root +:+ "CS/493.html");
       (UIUCSectionListParser, Term2011.root +:+ "CS/493.html")]
  ∧ section_list out2.2
    = <["CS" := {[ CInt 493 := Term2011.cs_493 ]}]>
        (<["cs" := {[ CInt 493 := Term2011.cs_493 ]}]> ∅).
Proof.
  intros self out1 out2.
  assert (("cs" : string) ≠ "CS") as Hne by discriminate.
  assert (read_page CourseListParser.class
            (urls_root self +:+ PyStr.upper "cs" +:+ "/") = Ok ["493"])
    as Hcourses by reflexivity.
  assert (read_page SectionListParser.class
            (urls_root self +:+ PyStr.upper "cs" +:+ "/"
             +:+ str_course (CInt 493) +:+ ".html") = Ok Term2011.cs_493)
    as Hsecs by reflexivity.
  split; [exact Hne|]. split; [reflexivity|].
  destruct (subject_case_splits_cache Term2011.urlopen Term2011.callbacks
              self "cs" "CS" (CInt 493) ["493"] Term2011.cs_493
              Hne eq_refl eq_refl eq_refl eq_refl eq_refl Hcourses Hsecs)
    as [(_ & Hreq1 & Hcache1) (_ & Hreq2 & Hcache2)].
  split; [exact Hreq1|]. split; [exact Hcache1|].
  split; [exact Hreq2|]. exact Hcache2.
Defined.

(** C4.  On the fetcher of spring 2011 the subject ECE has a page without
    courses and the course ECE 110 a page without sections: calling
    [fetch_course_list] twice, or [fetch_section_list] twice, sends the
    request twice. *)
Theorem empty_result_is_requested_twice :
  let courses := (fetch_course_list "ECE" ;; fetch_course_list "ECE") Term2011.fetcher in
  let sections :=
    (fetch_section_list "ECE" (CInt 110) ;; fetch_section_list "ECE" (CInt 110))
      Term2011.fetcher in
  courses.1 = Ok []
  ∧ requests courses.2
    = [(UIUCCourseListParser, Term2011.root +:+ "ECE/");
       (UIUCCourseListParser, Term2011.root +:+ "ECE/")]
  ∧ sections.1 = Ok ∅
  ∧ requests sections.2
    = [(UIUCSectionListParser, Term2011.root +:+ "ECE/110.html");
       (UIUCSectionListParser, Term2011.root +:+ "ECE/110.html")].
Proof. cbv zeta. split; [|split; [|split]]; reflexivity. Qed.

(** C6.  Called with the tuple [('CS',)], the collection the docstring
    names for several subjects, [fetch] does not keep to the subject CS:
    it requests the portal page, goes through every subject listed there
    and returns an entry for MATH as well. *)
Theorem fetch_tuple_is_not_restricted :
  let out := fetch (ArgTuple ["CS"]) None Term2011.fetcher in
  out.1 = Ok (<["MATH" := ∅]> {[ "CS" := {[ CStr "493" := Term2011.cs_493 ]} ]})
  ∧ requests out.2
    = [(UIUCSubjectListParser, Term2011.root +:+ "index.html");
       (UIUCCourseListParser, Term2011.root +:+ "CS/");
       (UIUCSectionListParser, Term2011.root +:+ "CS/493.html");
       (UIUCCourseListParser, Term2011.root +:+ "MATH/")].
Proof. cbv zeta. split; reflexivity. Qed.

(** The same subject in a list is kept to. *)
Lemma fetch_list_is_restricted :
  let out := fetch (ArgList ["CS"]) None Term2011.fetcher in
  out.1 = Ok {[ "CS" := {[ CStr "493" := Term2011.cs_493 ]} ]}
  ∧ requests out.2
    = [(UIUCCourseListParser, Term2011.root +:+ "CS/");
       (UIUCSectionListParser, Term2011.root +:+ "CS/493.html")].
Proof. cbv zeta. split; reflexivity. Qed.

End Term2011Facts.

(** * Further properties *)

(** ** Whole runs of the list scanners *)

Section ListScannerRuns.

Lemma run_app {R} (P : parser_class R) (st : pstate P) (cbs1 cbs2 : list callback) :
  run P st (cbs1 ++ cbs2)
  = match run P st cbs1 with
    | Ok st' => run P st' cbs2
    | Raise e => Raise e
    end.
Proof.
  revert st. induction cbs1 as [|cb cbs1 IH]; intros st; simpl; [done|].
  by destruct (dispatch P st cb).
Qed.

Lemma subject_texts (self : SubjectListParser.state) (texts : list string) :
  run SubjectListParser.class self (flat_map (λ t, [Data t; OtherCallback]) texts)
  = Ok {| SubjectListParser.subject_list :=
            SubjectListParser.subject_list self
            ++ (if SubjectListParser.ready self then texts else []);
          SubjectListParser.ready := SubjectListParser.ready self |}.
Proof.
  revert self. induction texts as [|t texts IH]; intros [l b]; simpl.
  - destruct b; by rewrite app_nil_r.
  - unfold SubjectListParser.handle_data. destruct b; simpl.
    + rewrite IH. simpl. by rewrite <- app_assoc.
    + rewrite IH. done.
Qed.

(** X1.  A start tag of the subject scanner opens a stretch that lasts
    until the next start tag: when the tag is a div of class
    ws-course-number every text of the stretch is appended to the subject
    list, those after the element's end tag included; otherwise every
    text of the stretch is dropped. *)
Theorem subject_stretch (self : SubjectListParser.state) (tag : string)
    (attrs : attr_list) (texts : list string) :
  let label :=
    bool_decide (PyStr.lower tag = "div")
    && bool_decide (dict_get (py_dict attrs) "class" = Some "ws-course-number") in
  run SubjectListParser.class self
    (StartTag tag attrs :: flat_map (λ t, [Data t; OtherCallback]) texts)
  = Ok {| SubjectListParser.subject_list :=
            SubjectListParser.subject_list self ++ (if label then texts else []);
          SubjectListParser.ready := label |}.
Proof.
  intros label.
  change (run SubjectListParser.class self
            (StartTag tag attrs :: flat_map (λ t, [Data t; OtherCallback]) texts))
    with (match SubjectListParser.handle_starttag self tag attrs with
          | Ok st' =>
              run SubjectListParser.class st'
                (flat_map (λ t, [Data t; OtherCallback]) texts)
          | Raise e => Raise e
          end).
  unfold SubjectListParser.handle_starttag. fold label.
  destruct label; by rewrite subject_texts.
Qed.

(** X2.  A subject page made of one labelled div per subject, each with
    its text and its end tag, gives back the subjects, in the order of
    the page, after those the scanner already holds. *)
Theorem subject_listing_round_trip (self : SubjectListParser.state)
    (tag : string) (attrs : attr_list) (subjects : list string) :
  PyStr.lower tag = "div" →
  dict_get (py_dict attrs) "class" = Some "ws-course-number" →
  ∃ st,
    run SubjectListParser.class self
      (flat_map (λ s, [StartTag tag attrs; Data s; OtherCallback]) subjects)
    = Ok st
    ∧ SubjectListParser.get_result st
      = SubjectListParser.subject_list self ++ subjects.
Proof.
  intros Htag Hclass. revert self.
  induction subjects as [|s subjects IH]; intros self.
  - exists self. split; [done|]. unfold SubjectListParser.get_result.
    by rewrite app_nil_r.
  - cbn [flat_map app].
    change (run SubjectListParser.class self
              (StartTag tag attrs :: Data s :: OtherCallback
               :: flat_map (λ s, [StartTag tag attrs; Data s; OtherCallback]) subjects))
      with (match SubjectListParser.handle_starttag self tag attrs with
            | Ok st1 =>
                match SubjectListParser.handle_data st1 s with
                | Ok st2 =>
                    run SubjectListParser.class st2
                      (flat_map (λ s, [StartTag tag attrs; Data s; OtherCallback])
                         subjects)
                | Raise e => Raise e
                end
            | Raise e => Raise e
            end).
    unfold SubjectListParser.handle_starttag, SubjectListParser.handle_data.
    rewrite Htag, Hclass. simpl.
    destruct (IH {| SubjectListParser.subject_list :=
                      SubjectListParser.subject_list self ++ [s];
                    SubjectListParser.ready := true |}) as (st & Hrun & Hresult).
    exists st. split; [exact Hrun|].
    rewrite Hresult. simpl. by rewrite <- app_assoc.
Qed.

Lemma subject_listing_round_trip_witness :
  PyStr.lower "DIV" = "div"
  ∧ dict_get (py_dict [("id", Some "s1"); ("class", Some "ws-course-number")]) "class"
    = Some "ws-course-number"
  ∧ ∃ st,
      run SubjectListParser.class SubjectListParser.init
        (flat_map
           (λ s, [StartTag "DIV" [("id", Some "s1"); ("class", Some "ws-course-number")];
                  Data s; OtherCallback])
           ["CS"; "MATH"])
      = Ok st
      ∧ SubjectListParser.get_result st = [] ++ ["CS"; "MATH"].
Proof.
  split; [reflexivity|]. split; [reflexivity|].
  exact (subject_listing_round_trip SubjectListParser.init "DIV"
           [("id", Some "s1"); ("class", Some "ws-course-number")]
           ["CS"; "MATH"] eq_refl eq_refl).
Defined.

(** X3.  A course page made of one labelled div per course, each with a
    label of two pieces without spaces, joined by one space, gives back
    the second pieces, in the order of the page. *)
Theorem course_listing_round_trip (self : CourseListParser.state)
    (tag : string) (attrs : attr_list) (labels : list (string * string)) :
  PyStr.lower tag = "div" →
  dict_get (py_dict attrs) "class" = Some "ws-course-number" →
  Forall (λ l, PyStr.no_space l.1 = true ∧ PyStr.no_space l.2 = true) labels →
  ∃ st,
    run CourseListParser.class self
      (flat_map
         (λ l, [StartTag tag attrs; Data (l.1 +:+ " " +:+ l.2); OtherCallback])
         labels)
    = Ok st
    ∧ CourseListParser.get_result st
      = CourseListParser.course_no self ++ labels.*2.
Proof.
  intros Htag Hclass Hlabels. revert self.
  induction Hlabels as [|[a b] labels [Ha Hb] _ IH]; intros self.
  - exists self. split; [done|]. unfold CourseListParser.get_result.
    by rewrite app_nil_r.
  - cbn [flat_map app fst snd].
    change (run CourseListParser.class self
              (StartTag tag attrs :: Data (a +:+ " " +:+ b) :: OtherCallback
               :: flat_map
                    (λ l, [StartTag tag attrs; Data (l.1 +:+ " " +:+ l.2);
                           OtherCallback]) labels))
      with (match CourseListParser.handle_starttag self tag attrs with
            | Ok st1 =>
                match CourseListParser.handle_data st1 (a +:+ " " +:+ b) with
                | Ok st2 =>
                    run CourseListParser.class st2
                      (flat_map
                         (λ l, [StartTag tag attrs; Data (l.1 +:+ " " +:+ l.2);
                                OtherCallback]) labels)
                | Raise e => Raise e
                end
            | Raise e => Raise e
            end).
    unfold CourseListParser.handle_starttag, CourseListParser.handle_data.
    rewrite Htag, Hclass. simpl in Ha, Hb. simpl.
    rewrite (split_space_second _ _ Ha Hb).
    destruct (IH {| CourseListParser.course_no :=
                      CourseListParser.course_no self ++ [b];
                    CourseListParser.ready := true |}) as (st & Hrun & Hresult).
    exists st. split; [exact Hrun|].
    rewrite Hresult. simpl. by rewrite <- app_assoc.
Qed.

Lemma course_listing_round_trip_witness :
  PyStr.lower "div" = "div"
  ∧ dict_get (py_dict [("class", Some "ws-course-number")]) "class"
    = Some "ws-course-number"
  ∧ Forall (λ l : string * string,
              PyStr.no_space l.1 = true ∧ PyStr.no_space l.2 = true)
      [("CS", "101"); ("CS", "493")]
  ∧ ∃ st,
      run CourseListParser.class CourseListParser.init
        (flat_map
           (λ l : string * string,
              [StartTag "div" [("class", Some "ws-course-number")];
               Data (l.1 +:+ " " +:+ l.2); OtherCallback])
           [("CS", "101"); ("CS", "493")])
      = Ok st
      ∧ CourseListParser.get_result st = [] ++ ["101"; "493"].
Proof.
  assert (Forall (λ l : string * string,
                    PyStr.no_space l.1 = true ∧ PyStr.no_space l.2 = true)
            [("CS", "101"); ("CS", "493")]) as Hlabels
    by (repeat constructor).
  split; [reflexivity|]. split; [reflexivity|]. split; [exact Hlabels|].
  exact (course_listing_round_trip CourseListParser.init "div"
           [("class", Some "ws-course-number")] [("CS", "101"); ("CS", "493")]
           eq_refl eq_refl Hlabels).
Defined.

(** X4.  The marker of the course scanner outlives the label's end tag:
    a text without a space that comes after the end tag of a well-formed
    label, before any other start tag, makes the run fail with
    [IndexError], whatever follows it. *)
Theorem course_text_after_label_raises (self : CourseListParser.state)
    (tag : string) (attrs : attr_list) (a b text : string) (rest : list callback) :
  PyStr.lower tag = "div" →
  dict_get (py_dict attrs) "class" = Some "ws-course-number" →
  PyStr.no_space a = true → PyStr.no_space b = true →
  PyStr.no_space text = true →
  run CourseListParser.class self
    (StartTag tag attrs :: Data (a +:+ " " +:+ b) :: OtherCallback
     :: Data text :: rest)
  = Raise IndexError.
Proof.
  intros Htag Hclass Ha Hb Htext.
  change (run CourseListParser.class self
            (StartTag tag attrs :: Data (a +:+ " " +:+ b) :: OtherCallback
             :: Data text :: rest))
    with (match CourseListParser.handle_starttag self tag attrs with
          | Ok st1 =>
              match CourseListParser.handle_data st1 (a +:+ " " +:+ b) with
              | Ok st2 =>
                  match CourseListParser.handle_data st2 text with
                  | Ok st3 => run CourseListParser.class st3 rest
                  | Raise e => Raise e
                  end
              | Raise e => Raise e
              end
          | Raise e => Raise e
          end).
  unfold CourseListParser.handle_starttag, CourseListParser.handle_data.
  rewrite Htag, Hclass. simpl.
  rewrite (split_space_second _ _ Ha Hb). simpl.
  by rewrite (split_space_no_space _ Htext).
Qed.

Lemma course_text_after_label_raises_witness :
  PyStr.lower "div" = "div"
  ∧ dict_get (py_dict [("class", Some "ws-course-number")]) "class"
    = Some "ws-course-number"
  ∧ PyStr.no_space "CS" = true ∧ PyStr.no_space "493" = true
  ∧ PyStr.no_space (String "010"%char EmptyString) = true
  ∧ run CourseListParser.class CourseListParser.init
      [StartTag "div" [("class", Some "ws-course-number")]; Data "CS 493";
       OtherCallback; Data (String "010"%char EmptyString);
       StartTag "div" [("class", Some "ws-course-number")]; Data "CS 498"]
    = Raise IndexError.
Proof.
  do 5 (split; [reflexivity|]).
  exact (course_text_after_label_raises CourseListParser.init "div"
           [("class", Some "ws-course-number")] "CS" "493"
           (String "010"%char EmptyString)
           [StartTag "div" [("class", Some "ws-course-number")]; Data "CS 498"]
           eq_refl eq_refl eq_refl eq_refl eq_refl).
Defined.

End ListScannerRuns.

(** ** Whole runs of the section scanner *)

Section SectionScannerRuns.
Import SectionListParser.

Lemma classless_header_cell_raises (self : state) tag attrs :
  classless_header_cell (StartTag tag attrs) = true →
  handle_starttag self tag attrs = Raise AttributeError.
Proof.
  simpl. intros [[Htd Hh]%andb_prop Hc]%andb_prop.
  apply bool_decide_eq_true_1 in Htd, Hc.
  by apply section_starttag_raises_iff.
Qed.

Lemma other_starttag_returns (self : state) tag attrs :
  classless_header_cell (StartTag tag attrs) = false →
  ∃ self', handle_starttag self tag attrs = Ok self'.
Proof.
  intros Hcell.
  destruct (handle_starttag self tag attrs) as [self'|e] eqn:Hcall; [eauto|].
  apply section_starttag_raises_iff in Hcall as (_ & Htd & Hh & Hc).
  simpl in Hcell. by rewrite Hh, !bool_decide_eq_true_2 in Hcell.
Qed.

Lemma data_returns (self : state) data :
  crn_has_record self → ∃ self', handle_data self data = Ok self'.
Proof.
  unfold crn_has_record, handle_data. intros Hrec.
  case_bool_decide as Hcrn; [destruct (PyStr.int data); eauto|].
  destruct (current_crn self) as [crn|]; [|eauto].
  destruct (property_to_write self) as [property|]; [|eauto].
  case_bool_decide as Hp; [by subst|].
  destruct Hrec as [current_section ->]. eauto.
Qed.

Lemma section_run_outcome_from (cbs : list callback) (self : state) :
  crn_has_record self →
  if existsb classless_header_cell cbs
  then run class self cbs = Raise AttributeError
  else ∃ st, run class self cbs = Ok st.
Proof.
  revert self. induction cbs as [|cb cbs IH]; intros self Hrec; [simpl; eauto|].
  cbn [existsb run].
  destruct (classless_header_cell cb) eqn:Hcell; cbn [orb].
  - destruct cb as [tag attrs| |]; [|done..]. simpl.
    by rewrite (classless_header_cell_raises self tag attrs Hcell).
  - assert (∃ self', dispatch class self cb = Ok self') as [self' Hstep].
    { destruct cb as [tag attrs|data|]; simpl; [| |eauto].
      - by apply other_starttag_returns.
      - by apply data_returns. }
    rewrite Hstep. apply IH. by eapply dispatch_keeps_record.
Qed.

(** X5.  A section page makes the scanner fail exactly when it has a
    table cell with a recognised [headers] attribute and no [class]
    attribute: the run then ends with [AttributeError]; every other
    sequence of callbacks is processed to the end, so [KeyError] and
    [ValueError] never leave the scanner. *)
Theorem section_run_outcome (cbs : list callback) :
  if existsb classless_header_cell cbs
  then run class init cbs = Raise AttributeError
  else ∃ st, run class init cbs = Ok st.
Proof. apply section_run_outcome_from, init_has_record. Qed.

(** What a run keeps true of the scanner: the active field is one of the
    seven headers, and the records have fields among the six short names. *)
Local Abbreviation property_known self :=
  (match property_to_write self with
   | Some property => property ∈ headers
   | None => True
   end).

Local Abbreviation fields_known self :=
  (∀ (crn : Z) (record : section_record) (field : string),
     sections self !! crn = Some record →
     is_Some (record !! field) → field ∈ section_fields).

Lemma short_name_known (property : string) :
  property ∈ headers → property ≠ "ws-crn" →
  PyStr.slice_from 3 property ∈ section_fields.
Proof.
  intros Hin Hne. unfold headers in Hin.
  repeat (apply elem_of_cons in Hin as [->|Hin];
          [first [done | (unfold section_fields; set_solver)]|]).
  by apply elem_of_nil in Hin.
Qed.

Lemma dispatch_keeps_known (self self' : state) (cb : callback) :
  property_known self → fields_known self →
  dispatch class self cb = Ok self' →
  property_known self' ∧ fields_known self'.
Proof.
  intros Hp Hf. destruct cb as [tag attrs|data|]; simpl.
  - intros Hcall.
    destruct (section_starttag_frame _ _ _ _ Hcall) as [Hs _].
    split; [|by rewrite Hs].
    unfold handle_starttag in Hcall.
    destruct (_ && _); [by injection Hcall as <-|].
    destruct (is_row_cell tag (py_dict attrs)) as [[]|] eqn:Hcell;
      [| |done]; injection Hcall as <-; simpl; [|done].
    unfold is_row_cell, headers_and_class in Hcell.
    case_bool_decide; [|done].
    destruct (dict_get (py_dict attrs) "headers") as [h|]; simpl in *; [|done].
    by case_bool_decide.
  - unfold handle_data. case_bool_decide as Hcrn.
    + destruct (PyStr.int data) as [crn|]; intros [= <-]; simpl;
        (split; [done|]); [|done].
      intros crn' record field.
      destruct (decide (crn = crn')) as [<-|Hne].
      * rewrite lookup_insert_eq. intros [= <-]. rewrite lookup_empty.
        by intros [? ?].
      * rewrite lookup_insert_ne by done. apply Hf.
    + destruct (current_crn self) as [crn|]; [|by intros [= <-]].
      destruct (property_to_write self) as [property|] eqn:Hprop;
        [|by intros [= <-]; rewrite Hprop].
      case_bool_decide as Hne; [by subst|].
      destruct (sections self !! crn) as [current_section|] eqn:Hrec; [|done].
      intros [= <-]; cbn [sections property_to_write]. split; [done|].
      intros crn' record field.
      destruct (decide (crn = crn')) as [<-|Hother].
      * rewrite lookup_insert_eq. intros [= <-].
        destruct (decide (PyStr.slice_from 3 property = field)) as [<-|Hfield].
        -- intros _. by apply short_name_known.
        -- rewrite lookup_insert_ne by done. by apply (Hf crn).
      * rewrite lookup_insert_ne by done. apply Hf.
  - by intros [= <-].
Qed.

Lemma run_keeps_known (cbs : list callback) (self self' : state) :
  property_known self → fields_known self →
  run class self cbs = Ok self' →
  property_known self' ∧ fields_known self'.
Proof.
  revert self. induction cbs as [|cb cbs IH]; intros self Hp Hf; simpl.
  - by intros [= <-].
  - destruct (dispatch class self cb) as [self1|] eqn:Hstep; [|done].
    destruct (dispatch_keeps_known _ _ _ Hp Hf Hstep). by apply IH.
Qed.



Lemma dispatch_keeps_records (self self' : state) (cb : callback) (crn : Z) :
  dispatch class self cb = Ok self' →
  is_Some (sections self !! crn) → is_Some (sections self' !! crn).
Proof.
  destruct cb as [tag attrs|data|]; simpl.
  - intros [-> _]%section_starttag_frame. done.
  - unfold handle_data. intros Hcall Hcrn.
    assert (∀ crn' (record : section_record),
              is_Some (<[crn' := record]> (sections self) !! crn)) as Hinsert.
    { intros crn' record. destruct (decide (crn' = crn)) as [->|Hne].
      - rewrite lookup_insert_eq. eauto.
      - by rewrite lookup_insert_ne. }
    case_bool_decide.
    + destruct (PyStr.int data); injection Hcall as <-; [apply Hinsert|done].
    + destruct (current_crn self) as [crn0|]; [|by injection Hcall as <-].
      destruct (property_to_write self) as [property|];
        [|by injection Hcall as <-].
      case_bool_decide.
      * destruct (PyStr.int _); [|done]. injection Hcall as <-. apply Hinsert.
      * destruct (sections self !! crn0); [|done].
        injection Hcall as <-. apply Hinsert.
  - by intros [= <-].
Qed.

(** X7.  The scanner never removes a record: a CRN that has one at some
    point of a run still has one at every later point (its fields may
    have been emptied by a second occurrence of the CRN). *)
Theorem section_records_never_removed (cbs : list callback) (self st : state)
    (crn : Z) :
  run class self cbs = Ok st →
  is_Some (sections self !! crn) →
  is_Some (sections st !! crn).
Proof.
  revert self. induction cbs as [|cb cbs IH]; intros self; simpl.
  - by intros [= <-].
  - destruct (dispatch class self cb) as [self1|] eqn:Hstep; [|done].
    intros Hrun Hcrn. apply (IH self1 Hrun).
    by eapply dispatch_keeps_records.
Qed.

Lemma section_records_never_removed_witness :
  let self := {| sections := {[ 31260 := {[ "days" := "W" ]} ]};
                 current_crn := Some 31260;
                 property_to_write := None |} in
  ∃ st,
    run class self [StartTag "td" (Term2011.cell "ws-crn"); Data "31261"] = Ok st
    ∧ is_Some (sections self !! 31260)
    ∧ is_Some (sections st !! 31260).
Proof.
  intros self. eexists. split; [reflexivity|].
  assert (is_Some (sections self !! 31260)) as Hcrn by (by eexists).
  split; [exact Hcrn|].
  exact (section_records_never_removed
           [StartTag "td" (Term2011.cell "ws-crn"); Data "31261"]
           self _ 31260 eq_refl Hcrn).
Defined.

(** *** The text a field receives *)

Lemma rstrip_keeps_head (c : ascii) (s : string) :
  PyStr.isspace c = false →
  PyStr.rstrip (String c s) = String c (PyStr.rstrip s).
Proof. intros Hc. simpl. rewrite Hc. by destruct (PyStr.rstrip s). Qed.

Lemma rstrip_rstrip (s : string) : PyStr.rstrip (PyStr.rstrip s) = PyStr.rstrip s.
Proof.
  induction s as [|c s IH]; [done|]. cbn [PyStr.rstrip].
  destruct (PyStr.rstrip s) as [|a r] eqn:Hr.
  - destruct (PyStr.isspace c) eqn:Hc; [done|]. simpl. by rewrite Hc.
  - cbn [PyStr.rstrip] in *. by rewrite IH.
Qed.

Lemma lstrip_head (s : string) :
  PyStr.lstrip s = EmptyString
  ∨ ∃ c r, PyStr.lstrip s = String c r ∧ PyStr.isspace c = false.
Proof.
  induction s as [|c s IH]; [by left|]. simpl.
  destruct (PyStr.isspace c) eqn:Hc; [done|]. right. eauto.
Qed.

Lemma sub_spaces_single_spaced (s : string) :
  PyStr.rstrip s = s → s ≠ EmptyString →
  ∀ b, single_spaced b (PyStr.sub_spaces b s) = true.
Proof.
  induction s as [|c s IH]; [done|]. intros Hfix _ b.
  cbn [PyStr.rstrip] in Hfix.
  assert (PyStr.isspace " " = true) as Hspace by reflexivity.
  destruct (PyStr.rstrip s) as [|a r] eqn:Hr.
  - destruct (PyStr.isspace c) eqn:Hc; [done|]. injection Hfix as <-.
    cbn [PyStr.sub_spaces single_spaced]. rewrite Hc.
    cbn [PyStr.sub_spaces single_spaced]. by rewrite Hc.
  - injection Hfix as Hs. rewrite <- Hs in IH.
    assert (∀ b', single_spaced b' (PyStr.sub_spaces b' (String a r)) = true)
      as IH' by (by apply IH).
    rewrite <- Hs. cbn [PyStr.sub_spaces].
    destruct (PyStr.isspace c) eqn:Hc; destruct b.
    + apply IH'.
    + cbn [single_spaced]. rewrite Hspace. simpl. apply IH'.
    + cbn [single_spaced]. rewrite Hc. apply IH'.
    + cbn [single_spaced]. rewrite Hc. apply IH'.
Qed.

(** X8.  The text written into a field is normalised: whatever the datum,
    its cleaned form has no whitespace at either end, no whitespace
    character other than the space, and no two spaces in a row. *)
Theorem clean_is_normalised (data : string) : normalised (clean data) = true.
Proof.
  unfold clean, PyStr.strip.
  destruct (lstrip_head data) as [->|(c & r & -> & Hc)]; [done|].
  rewrite (rstrip_keeps_head _ _ Hc).
  cbn [PyStr.sub_spaces]. rewrite Hc.
  cbn [normalised single_spaced]. rewrite Hc.
  destruct (PyStr.rstrip r) as [|a r'] eqn:Hr; [done|].
  rewrite <- Hr. apply sub_spaces_single_spaced.
  - apply rstrip_rstrip.
  - by rewrite Hr.
Qed.

End SectionScannerRuns.

(** ** A row of a section page *)

Section SectionRow.
Import SectionListParser.

(** The attributes of a data cell for a header. *)
Local Abbreviation cell header :=
  [("headers", Some header); ("class", Some "ws-row")].

Lemma cell_selects (self : state) (header : string) :
  header ∈ headers →
  handle_starttag self "td" (cell header) = Ok (set_property self (Some header)).
Proof.
  intros Hin.
  assert (is_row_cell "td" (py_dict (cell header)) = Ok true) as Hcell.
  { unfold headers in Hin.
    repeat (apply elem_of_cons in Hin as [->|Hin]; [reflexivity|]).
    by apply elem_of_nil in Hin. }
  rewrite (row_cell_selects_field self "td" (cell header) Hcell).
  reflexivity.
Qed.

Lemma short_name_inj (h1 h2 : string) :
  h1 ∈ headers → h2 ∈ headers →
  PyStr.slice_from 3 h1 = PyStr.slice_from 3 h2 → h1 = h2.
Proof.
  unfold headers. intros H1 H2.
  repeat (apply elem_of_cons in H1 as [->|H1]);
    try (by apply elem_of_nil in H1);
    repeat (apply elem_of_cons in H2 as [->|H2]);
    try (by apply elem_of_nil in H2); done.
Qed.

(** The cells that follow the CRN cell of a row, each written into the
    record of the current CRN. *)
Lemma row_fields (fields : list (string * string)) :
  ∀ (self : state) (crn : Z) (record : section_record),
    current_crn self = Some crn →
    sections self !! crn = Some record →
    Forall (λ f, f.1 ∈ headers ∧ f.1 ≠ "ws-crn") fields →
    NoDup fields.*1 →
    (∀ f, f ∈ fields → record !! PyStr.slice_from 3 f.1 = None) →
    ∃ st record',
      run class self (flat_map (λ f, [StartTag "td" (cell f.1); Data f.2]) fields)
      = Ok st
      ∧ current_crn st = Some crn
      ∧ sections st = <[crn := record']> (sections self)
      ∧ (∀ f, f ∈ fields → record' !! PyStr.slice_from 3 f.1 = Some (clean f.2))
      ∧ (∀ k, (∀ f, f ∈ fields → k ≠ PyStr.slice_from 3 f.1) →
              record' !! k = record !! k).
Proof.
  induction fields as [|[h t] fields IH];
    intros self crn record Hcrn Hrec Hok Hnodup Hfresh.
  - exists self, record. split; [done|]. split; [done|].
    split; [by rewrite insert_id|]. split; [|done].
    intros f Hf. by apply not_elem_of_nil in Hf.
  - apply Forall_cons in Hok as [[Hh Hne] Hok]. simpl in Hh, Hne.
    cbn [fmap list_fmap fst] in Hnodup.
    apply NoDup_cons in Hnodup as [Hnotin Hnodup].
    set (key := PyStr.slice_from 3 h).
    set (record1 := <[key := clean t]> record).
    set (self1 := {| sections := <[crn := record1]> (sections self);
                     current_crn := Some crn;
                     property_to_write := Some h |}).
    assert (run class self
              (flat_map (λ f, [StartTag "td" (cell f.1); Data f.2]) ((h, t) :: fields))
            = run class self1
                (flat_map (λ f, [StartTag "td" (cell f.1); Data f.2]) fields))
      as Hstep.
    { cbn [flat_map app fst snd].
      change (run class self
                (StartTag "td" (cell h) :: Data t
                 :: flat_map (λ f, [StartTag "td" (cell f.1); Data f.2]) fields))
        with (match handle_starttag self "td" (cell h) with
              | Ok st1 =>
                  match handle_data st1 t with
                  | Ok st2 =>
                      run class st2
                        (flat_map (λ f, [StartTag "td" (cell f.1); Data f.2]) fields)
                  | Raise e => Raise e
                  end
              | Raise e => Raise e
              end).
      rewrite (cell_selects self h Hh).
      unfold handle_data. cbn [set_property property_to_write current_crn sections].
      rewrite bool_decide_eq_false_2 by congruence.
      rewrite Hcrn, bool_decide_eq_false_2, Hrec by done.
      assert (record !! key = None) as Hkey by (apply (Hfresh (h, t)); by left).
      fold key. by rewrite Hkey. }
    assert (∀ f, f ∈ fields → PyStr.slice_from 3 f.1 ≠ key) as Hkeys.
    { intros f Hf Heq. apply Hnotin.
      pose proof (proj1 (Forall_forall _ _) Hok f Hf) as [Hfh _].
      apply (short_name_inj f.1 h Hfh Hh) in Heq.
      rewrite <- Heq. apply list_elem_of_fmap. eauto. }
    destruct (IH self1 crn record1) as (st & record' & Hrun & Hc & Hs & Hin & Hout).
    + done.
    + simpl. by rewrite lookup_insert_eq.
    + done.
    + done.
    + intros f Hf. unfold record1. rewrite lookup_insert_ne by (by apply not_eq_sym, Hkeys).
      apply Hfresh. by right.
    + exists st, record'. rewrite Hstep. split; [done|]. split; [done|].
      split; [rewrite Hs; simpl; by rewrite insert_insert_eq|].
      split.
      * intros f [->|Hf]%elem_of_cons; [|by apply Hin]. simpl. fold key.
        rewrite Hout by (intros f Hf; by apply not_eq_sym, Hkeys).
        unfold record1. by rewrite lookup_insert_eq.
      * intros k Hk. rewrite Hout by (intros f Hf; apply Hk; by right).
        unfold record1. rewrite lookup_insert_ne; [done|].
        apply not_eq_sym. apply (Hk (h, t)). by left.
Qed.

(** X9.  A row of a section page, read in any state of the scanner: a CRN
    cell with a numeral, then data cells for distinct headers other than
    crn, each with one text.  The run ends normally; the CRN is the
    current one, its record holds exactly the cleaned text of every cell
    under the cell's short name, and the records of other CRNs are as
    they were. *)
Theorem section_row_round_trip (self : state) (crn_text : string) (crn : Z)
    (fields : list (string * string)) :
  PyStr.int crn_text = Ok crn →
  Forall (λ f, f.1 ∈ headers ∧ f.1 ≠ "ws-crn") fields →
  NoDup fields.*1 →
  ∃ st record,
    run class self
      (StartTag "td" (cell "ws-crn") :: Data crn_text
       :: flat_map (λ f, [StartTag "td" (cell f.1); Data f.2]) fields)
    = Ok st
    ∧ current_crn st = Some crn
    ∧ get_result st !! crn = Some record
    ∧ (∀ other, other ≠ crn → get_result st !! other = sections self !! other)
    ∧ (∀ f, f ∈ fields → record !! PyStr.slice_from 3 f.1 = Some (clean f.2))
    ∧ (∀ k, is_Some (record !! k) → ∃ f, f ∈ fields ∧ k = PyStr.slice_from 3 f.1).
Proof.
  intros Hint Hok Hnodup.
  set (self1 := {| sections := <[crn := ∅]> (sections self);
                   current_crn := Some crn;
                   property_to_write := Some "ws-crn" |}).
  assert (run class self
            (StartTag "td" (cell "ws-crn") :: Data crn_text
             :: flat_map (λ f, [StartTag "td" (cell f.1); Data f.2]) fields)
          = run class self1
              (flat_map (λ f, [StartTag "td" (cell f.1); Data f.2]) fields))
    as Hstep.
  { change (run class self
              (StartTag "td" (cell "ws-crn") :: Data crn_text
               :: flat_map (λ f, [StartTag "td" (cell f.1); Data f.2]) fields))
      with (match handle_starttag self "td" (cell "ws-crn") with
            | Ok st1 =>
                match handle_data st1 crn_text with
                | Ok st2 =>
                    run class st2
                      (flat_map (λ f, [StartTag "td" (cell f.1); Data f.2]) fields)
                | Raise e => Raise e
                end
            | Raise e => Raise e
            end).
    rewrite (cell_selects self "ws-crn") by (unfold headers; set_solver).
    unfold handle_data. cbn [set_property property_to_write].
    rewrite bool_decide_eq_true_2 by done. by rewrite Hint. }
  destruct (row_fields fields self1 crn ∅) as (st & record & Hrun & Hc & Hs & Hin & Hout);
    [done|by simpl; rewrite lookup_insert_eq|done|done|by intros; apply lookup_empty|].
  exists st, record. rewrite Hstep. split; [done|]. split; [done|].
  unfold get_result. rewrite Hs. simpl.
  split; [by rewrite lookup_insert_eq|].
  split; [by intros other Hother; rewrite !lookup_insert_ne|].
  split; [done|].
  intros k Hk.
  destruct (decide (Exists (λ f, k = PyStr.slice_from 3 f.1) fields)) as [Hex|Hnone].
  - apply Exists_exists in Hex as (f & Hf & ->). eauto.
  - rewrite Hout, lookup_empty in Hk; [by destruct Hk|].
    intros f Hf ->. apply Hnone, Exists_exists. eauto.
Qed.

Lemma section_row_round_trip_witness :
  PyStr.int " 31260 " = Ok 31260
  ∧ Forall (λ f : string * string, f.1 ∈ headers ∧ f.1 ≠ "ws-crn")
      [("ws-days", "W"); ("ws-time", "04:00 PM  -  04:50 PM")]
  ∧ NoDup ([("ws-days", "W"); ("ws-time", "04:00 PM  -  04:50 PM")].*1)
  ∧ ∃ st record,
      run class init
        (StartTag "td" (cell "ws-crn") :: Data " 31260 "
         :: flat_map (λ f : string * string, [StartTag "td" (cell f.1); Data f.2])
              [("ws-days", "W"); ("ws-time", "04:00 PM  -  04:50 PM")])
      = Ok st
      ∧ current_crn st = Some 31260
      ∧ get_result st !! 31260 = Some record
      ∧ (∀ other, other ≠ 31260 → get_result st !! other = sections init !! other)
      ∧ (∀ f, f ∈ [("ws-days", "W"); ("ws-time", "04:00 PM  -  04:50 PM")] →
              record !! PyStr.slice_from 3 f.1 = Some (clean f.2))
      ∧ (∀ k, is_Some (record !! k) →
              ∃ f, f ∈ [("ws-days", "W"); ("ws-time", "04:00 PM  -  04:50 PM")]
                   ∧ k = PyStr.slice_from 3 f.1).
Proof.
  assert (Forall (λ f : string * string, f.1 ∈ headers ∧ f.1 ≠ "ws-crn")
            [("ws-days", "W"); ("ws-time", "04:00 PM  -  04:50 PM")]) as Hok.
  { repeat constructor; simpl; first [discriminate | (unfold headers; set_solver)]. }
  assert (NoDup ([("ws-days", "W"); ("ws-time", "04:00 PM  -  04:50 PM")].*1))
    as Hnodup.
  { simpl. apply NoDup_cons. split; [|apply NoDup_singleton].
    intros Hin%list_elem_of_singleton. discriminate. }
  split; [reflexivity|]. split; [exact Hok|]. split; [exact Hnodup|].
  exact (section_row_round_trip init " 31260 " 31260
           [("ws-days", "W"); ("ws-time", "04:00 PM  -  04:50 PM")]
           eq_refl Hok Hnodup).
Defined.

End SectionRow.

(** ** The fetcher's caches *)

Section FetcherCaches.
Import CourseFetcher.

Variable urlopen : string → result (list string).
Variable callbacks : list string → list callback.

Local Abbreviation read_page := (read_page urlopen callbacks).
Local Abbreviation fetch_subject_list := (fetch_subject_list urlopen callbacks).
Local Abbreviation fetch_course_list := (fetch_course_list urlopen callbacks).
Local Abbreviation fetch_section_list := (fetch_section_list urlopen callbacks).
Local Abbreviation fetch := (fetch urlopen callbacks).

Local Abbreviation courses_url self subject :=
  (urls_root self +:+ PyStr.upper subject +:+ "/").
Local Abbreviation sections_url self subject course_no :=
  (urls_root self +:+ PyStr.upper subject +:+ "/"
   +:+ str_course course_no +:+ ".html").
Local Abbreviation cached_sections self subject course_no :=
  (match section_list self !! subject with
   | Some of_subject => of_subject !! course_no
   | None => None
   end).

(** X10.  A call of [fetch_subject_list] that returns makes every later
    call a no-operation: it returns the same list, empty or not, and
    leaves the fetcher, its request log included, as it is. *)
Theorem subject_list_is_memoised (self self' : fetcher) (subjects : list string) :
  fetch_subject_list self = (Ok subjects, self') →
  fetch_subject_list self' = (Ok subjects, self').
Proof.
  rewrite !fetch_subject_list_eval.
  destruct (subject_list self) as [l|] eqn:Hcached.
  - intros [= <- <-]. by rewrite Hcached.
  - cbv zeta.
    destruct (read_page SubjectListParser.class (urls_portal self)); [|done].
    intros Heq. injection Heq as Hr Hs. subst. reflexivity.
Qed.

(** X11.  A call of [fetch_course_list] that returns a non-empty list, and
    a call of [fetch_section_list] that returns a non-empty mapping, make
    every later call with the same arguments a no-operation that returns
    the same value. *)
Theorem non_empty_result_is_memoised (self self' : fetcher) (subject : string)
    (course_no : course_key) :
  (∀ courses,
     fetch_course_list subject self = (Ok courses, self') → courses ≠ [] →
     fetch_course_list subject self' = (Ok courses, self'))
  ∧ (∀ secs,
       fetch_section_list subject course_no self = (Ok secs, self') → secs ≠ ∅ →
       fetch_section_list subject course_no self' = (Ok secs, self')).
Proof.
  split.
  - intros courses. rewrite !fetch_course_list_eval.
    destruct (course_list self !! subject) as [[|c cs]|] eqn:Hcached; cbv zeta.
    + destruct (read_page CourseListParser.class (courses_url self subject))
        as [[|c cs]|]; intros Hcall Hne; [by injection Hcall as <- <-| |done].
      injection Hcall as <- <-. simpl. by rewrite lookup_insert_eq.
    + intros [= <- <-] _. by rewrite Hcached.
    + destruct (read_page CourseListParser.class (courses_url self subject))
        as [[|c cs]|]; intros Hcall Hne; [by injection Hcall as <- <-| |done].
      injection Hcall as <- <-. simpl. by rewrite lookup_insert_eq.
  - intros secs Hcall Hsecs.
    destruct (truthy_dict (cached_sections self subject course_no)) eqn:Htruthy.
    + destruct (cached_sections self subject course_no) as [r|] eqn:Hcached; [|done].
      assert (r ≠ ∅) as Hr by (simpl in Htruthy; by case_bool_decide).
      rewrite (fetch_section_list_hit urlopen callbacks self subject course_no r Hcached Hr) in Hcall.
      injection Hcall as <- <-.
      by apply fetch_section_list_hit.
    + destruct (fetch_section_list_miss urlopen callbacks self subject course_no Htruthy)
        as (of_subject & _ & Heval).
      rewrite Heval in Hcall. destruct (read_page _ _) as [r|]; [|done].
      injection Hcall as <- <-.
      apply fetch_section_list_hit; [|done].
      simpl. by rewrite !lookup_insert_eq.
Qed.

(** X12.  After [flush()] nothing is served from the caches: whatever the
    fetcher held, each of the three fetch methods called next sends
    exactly one request, for its own page. *)
Theorem flush_makes_every_fetch_request (self : fetcher) (subject : string)
    (course_no : course_key) :
  requests ((flush ;; fetch_subject_list) self).2
  = requests self ++ [(UIUCSubjectListParser, urls_portal self)]
  ∧ requests ((flush ;; fetch_course_list subject) self).2
    = requests self ++ [(UIUCCourseListParser, courses_url self subject)]
  ∧ requests ((flush ;; fetch_section_list subject course_no) self).2
    = requests self
      ++ [(UIUCSectionListParser, sections_url self subject course_no)].
Proof. apply flush_then_fetch. Qed.

(** X13.  A failure is not cached.  When the course list of a subject is
    not in the cache and reading its page raises, be it in the transport
    or in the scanner, [fetch_course_list] raises the same exception and
    leaves the three caches as they were; the call that follows sends the
    request again. *)
Theorem failed_course_list_is_not_cached (self : fetcher) (subject : string)
    (e : py_exception) :
  truthy_list (course_list self !! subject) = false →
  read_page CourseListParser.class (courses_url self subject) = Raise e →
  ∃ self',
    fetch_course_list subject self = (Raise e, self')
    ∧ subject_list self' = subject_list self
    ∧ course_list self' = course_list self
    ∧ section_list self' = section_list self
    ∧ requests (fetch_course_list subject self').2
      = requests self
        ++ [(UIUCCourseListParser, courses_url self subject);
            (UIUCCourseListParser, courses_url self subject)].
Proof.
  intros Hmiss Hpage. eexists. split.
  - rewrite fetch_course_list_eval.
    destruct (course_list self !! subject) as [[|c cs]|]; [|done|];
      cbv zeta; by rewrite Hpage.
  - do 3 (split; [done|]). rewrite fetch_course_list_eval. simpl.
    destruct (course_list self !! subject) as [[|c cs]|]; [|done|];
      rewrite Hpage; simpl; by rewrite <- app_assoc.
Qed.

(** X14.  [fetch_section_list] writes before it reads: when the sections
    of a course are not in the cache and reading the page raises, the
    exception is passed on and no sections are stored, for this course or
    any other; all that may have changed is that the subject now has an
    entry, an empty dictionary, in [self.section_list]. *)
Theorem failed_section_list_is_not_cached (self : fetcher) (subject : string)
    (course_no : course_key) (e : py_exception) :
  truthy_dict (cached_sections self subject course_no) = false →
  read_page SectionListParser.class (sections_url self subject course_no)
  = Raise e →
  ∃ self',
    fetch_section_list subject course_no self = (Raise e, self')
    ∧ subject_list self' = subject_list self
    ∧ course_list self' = course_list self
    ∧ is_Some (section_list self' !! subject)
    ∧ (∀ s c, cached_sections self' s c = cached_sections self s c)
    ∧ requests self'
      = requests self
        ++ [(UIUCSectionListParser, sections_url self subject course_no)].
Proof.
  intros Hmiss Hpage.
  destruct (fetch_section_list_miss urlopen callbacks self subject course_no Hmiss)
    as (of_subject & Hof & Heval).
  rewrite Hpage in Heval. eexists. split; [exact Heval|]. simpl.
  do 2 (split; [done|]).
  split; [rewrite lookup_insert_eq; eauto|]. split; [|done].
  intros s c. destruct (decide (subject = s)) as [<-|Hne].
  - rewrite lookup_insert_eq. apply Hof.
  - by rewrite lookup_insert_ne.
Qed.

(** X15.  [fetch] gives no partial result: called with a list of subjects
    whose first has no cached course list and a page that raises, it
    raises the same exception after that one request, and asks for none
    of the other subjects. *)
Theorem fetch_stops_at_first_failure (self : fetcher) (subject : string)
    (others : list string) (course_no : option course_key) (e : py_exception) :
  truthy_list (course_list self !! subject) = false →
  read_page CourseListParser.class (courses_url self subject) = Raise e →
  fetch (ArgList (subject :: others)) course_no self
  = (Raise e, log_request (UIUCCourseListParser, courses_url self subject) self).
Proof.
  intros Hmiss Hpage.
  change (fetch (ArgList (subject :: others)) course_no self)
    with (match fetch_course_list subject self with
          | (Ok courses, self1) =>
              (of_subject ← fetch_courses urlopen callbacks subject courses ∅;
               fetch_subjects urlopen callbacks others (<[subject := of_subject]> ∅))
                self1
          | (Raise e, self1) => (Raise e, self1)
          end).
  rewrite fetch_course_list_eval.
  destruct (course_list self !! subject) as [[|c cs]|]; [|done|];
    cbv zeta; by rewrite Hpage.
Qed.

(** X16.  A course number given as an integer and the same number as the
    string a course page gives are two keys of the cache for one URL:
    with nothing cached for the subject, fetching the sections under the
    integer and then under the string requests the same page twice and
    stores the mapping under both keys. *)
Theorem course_number_types_split_cache (self : fetcher) (subject : string)
    (n : Z) (secs : section_map) :
  section_list self !! subject = None →
  read_page SectionListParser.class (sections_url self subject (CInt n)) = Ok secs →
  let out := (fetch_section_list subject (CInt n) ;;
              fetch_section_list subject (CStr (PyStr.str n))) self in
  out.1 = Ok secs
  ∧ requests out.2
    = requests self
      ++ [(UIUCSectionListParser, sections_url self subject (CInt n));
          (UIUCSectionListParser, sections_url self subject (CInt n))]
  ∧ section_list out.2
    = <[subject := <[CStr (PyStr.str n) := secs]> {[ CInt n := secs ]}]>
        (section_list self).
Proof.
  intros Hnone Hpage. cbv zeta.
  destruct (fetch_section_list_miss urlopen callbacks self subject (CInt n)) as (of1 & Hof1 & Heval1).
  { by rewrite Hnone. }
  rewrite Hnone in Hof1.
  assert (of1 = ∅) as ->.
  { apply map_eq. intros c. by rewrite Hof1, lookup_empty. }
  rewrite Hpage in Heval1. rewrite then_eval, Heval1.
  match goal with
  | |- context [CourseFetcher.fetch_section_list _ _ _ _ ?s] => set (self2 := s)
  end.
  assert (section_list self2 !! subject = Some (<[CInt n := secs]> ∅)) as Hsub
    by (unfold self2; simpl; by rewrite lookup_insert_eq).
  destruct (fetch_section_list_miss urlopen callbacks self2 subject (CStr (PyStr.str n)))
    as (of2 & Hof2 & Heval2).
  { rewrite Hsub. by rewrite lookup_insert_ne. }
  rewrite Hsub in Hof2.
  assert (of2 = <[CInt n := secs]> ∅) as ->.
  { apply map_eq. intros c. by rewrite Hof2. }
  change (urls_root self2) with (urls_root self) in Heval2.
  change (str_course (CStr (PyStr.str n))) with (str_course (CInt n)) in Heval2.
  rewrite Hpage in Heval2. rewrite Heval2. simpl.
  rewrite <- app_assoc. split; [done|]. split; [done|].
  by rewrite insert_insert_eq.
Qed.

End FetcherCaches.

Section FetcherCachesExamples.
Import CourseFetcher.

Local Abbreviation courses_url self subject :=
  (urls_root self +:+ PyStr.upper subject +:+ "/").
Local Abbreviation sections_url self subject course_no :=
  (urls_root self +:+ PyStr.upper subject +:+ "/"
   +:+ str_course course_no +:+ ".html").
Local Abbreviation cached_sections self subject course_no :=
  (match section_list self !! subject with
   | Some of_subject => of_subject !! course_no
   | None => None
   end).

Lemma subject_list_is_memoised_witness :
  let fetch_subject_list :=
    CourseFetcher.fetch_subject_list Term2011.urlopen Term2011.callbacks in
  let self' := (fetch_subject_list Term2011.fetcher).2 in
  fetch_subject_list Term2011.fetcher = (Ok ["CS"; "MATH"], self')
  ∧ fetch_subject_list self' = (Ok ["CS"; "MATH"], self').
Proof.
  intros fetch_subject_list' self'. split; [reflexivity|].
  exact (subject_list_is_memoised Term2011.urlopen Term2011.callbacks
           Term2011.fetcher self' ["CS"; "MATH"] eq_refl).
Defined.

Lemma non_empty_result_is_memoised_witness :
  let fetch_course_list :=
    CourseFetcher.fetch_course_list Term2011.urlopen Term2011.callbacks in
  let self' := (fetch_course_list "CS" Term2011.fetcher).2 in
  fetch_course_list "CS" Term2011.fetcher = (Ok ["493"], self')
  ∧ ["493"] ≠ ([] : list string)
  ∧ fetch_course_list "CS" self' = (Ok ["493"], self').
Proof.
  intros fetch_course_list' self'.
  assert (["493"] ≠ ([] : list string)) as Hne by discriminate.
  split; [reflexivity|]. split; [exact Hne|].
  exact (proj1 (non_empty_result_is_memoised Term2011.urlopen Term2011.callbacks
                  Term2011.fetcher self' "CS" (CInt 493))
           ["493"] eq_refl Hne).
Defined.

Lemma failed_course_list_is_not_cached_witness :
  let down := λ _ : string, Raise URLError in
  let self := Term2011.fetcher in
  truthy_list (course_list self !! "CS") = false
  ∧ CourseFetcher.read_page down Term2011.callbacks CourseListParser.class
      (courses_url self "CS") = Raise URLError
  ∧ ∃ self',
      CourseFetcher.fetch_course_list down Term2011.callbacks "CS" self
      = (Raise URLError, self')
      ∧ subject_list self' = subject_list self
      ∧ course_list self' = course_list self
      ∧ section_list self' = section_list self
      ∧ requests (CourseFetcher.fetch_course_list down Term2011.callbacks "CS" self').2
        = requests self
          ++ [(UIUCCourseListParser, courses_url self "CS");
              (UIUCCourseListParser, courses_url self "CS")].
Proof.
  intros down self. split; [reflexivity|]. split; [reflexivity|].
  exact (failed_course_list_is_not_cached down Term2011.callbacks self "CS"
           URLError eq_refl eq_refl).
Defined.

Lemma failed_section_list_is_not_cached_witness :
  let down := λ _ : string, Raise URLError in
  let self := Term2011.fetcher in
  truthy_dict (cached_sections self "CS" (CInt 493)) = false
  ∧ CourseFetcher.read_page down Term2011.callbacks SectionListParser.class
      (sections_url self "CS" (CInt 493)) = Raise URLError
  ∧ ∃ self',
      CourseFetcher.fetch_section_list down Term2011.callbacks "CS" (CInt 493) self
      = (Raise URLError, self')
      ∧ subject_list self' = subject_list self
      ∧ course_list self' = course_list self
      ∧ is_Some (section_list self' !! "CS")
      ∧ (∀ s c, cached_sections self' s c = cached_sections self s c)
      ∧ requests self'
        = requests self
          ++ [(UIUCSectionListParser, sections_url self "CS" (CInt 493))].
Proof.
  intros down self. split; [reflexivity|]. split; [reflexivity|].
  exact (failed_section_list_is_not_cached down Term2011.callbacks self "CS"
           (CInt 493) URLError eq_refl eq_refl).
Defined.

Lemma fetch_stops_at_first_failure_witness :
  let down := λ _ : string, Raise URLError in
  let self := Term2011.fetcher in
  truthy_list (course_list self !! "CS") = false
  ∧ CourseFetcher.read_page down Term2011.callbacks CourseListParser.class
      (courses_url self "CS") = Raise URLError
  ∧ CourseFetcher.fetch down Term2011.callbacks (ArgList ["CS"; "MATH"]) None self
    = (Raise URLError,
       log_request (UIUCCourseListParser, courses_url self "CS") self).
Proof.
  intros down self. split; [reflexivity|]. split; [reflexivity|].
  exact (fetch_stops_at_first_failure down Term2011.callbacks self "CS" ["MATH"]
           None URLError eq_refl eq_refl).
Defined.

Lemma course_number_types_split_cache_witness :
  let self := Term2011.fetcher in
  let out := (CourseFetcher.fetch_section_list Term2011.urlopen Term2011.callbacks
                "CS" (CInt 493) ;;
              CourseFetcher.fetch_section_list Term2011.urlopen Term2011.callbacks
                "CS" (CStr (PyStr.str 493))) self in
  section_list self !! "CS" = None
  ∧ CourseFetcher.read_page Term2011.urlopen Term2011.callbacks
      SectionListParser.class (sections_url self "CS" (CInt 493))
    = Ok Term2011.cs_493
  ∧ out.1 = Ok Term2011.cs_493
  ∧ requests out.2
    = requests self
      ++ [(UIUCSectionListParser, sections_url self "CS" (CInt 493));
          (UIUCSectionListParser, sections_url self "CS" (CInt 493))]
  ∧ section_list out.2
    = <["CS" := <[CStr (PyStr.str 493) := Term2011.cs_493]>
                  {[ CInt 493 := Term2011.cs_493 ]}]>
        (section_list self).
Proof.
  intros self out. split; [reflexivity|]. split; [reflexivity|].
  exact (course_number_types_split_cache Term2011.urlopen Term2011.callbacks
           self "CS" 493 Term2011.cs_493 eq_refl eq_refl).
Defined.

End FetcherCachesExamples.

(** ** What [fetch] returns *)

Section FetchResult.
Import CourseFetcher.

Variable urlopen : string → result (list string).
Variable callbacks : list string → list callback.

Local Abbreviation read_page := (read_page urlopen callbacks).
Local Abbreviation fetch_subject_list := (fetch_subject_list urlopen callbacks).
Local Abbreviation fetch_course_list := (fetch_course_list urlopen callbacks).
Local Abbreviation fetch_section_list := (fetch_section_list urlopen callbacks).
Local Abbreviation fetch_courses := (fetch_courses urlopen callbacks).
Local Abbreviation fetch_subjects := (fetch_subjects urlopen callbacks).
Local Abbreviation fetch := (fetch urlopen callbacks).
Local Abbreviation fetch_all := (fetch_all urlopen callbacks).
Local Abbreviation coherent := (coherent urlopen callbacks).

Local Abbreviation courses_page root subject :=
  (read_page CourseListParser.class (root +:+ PyStr.upper subject +:+ "/")).
Local Abbreviation sections_page root subject course_no :=
  (read_page SectionListParser.class
     (root +:+ PyStr.upper subject +:+ "/" +:+ str_course course_no +:+ ".html")).

(** The entry of a subject in a result agrees with the pages under
    [root]: its keys are the courses of the subject's page, as strings,
    and each course has the sections of its own page. *)
Local Abbreviation entry_of_pages root subject of_subject :=
  (∃ courses,
     courses_page root subject = Ok courses
     ∧ (∀ k, is_Some ((of_subject : gmap course_key section_map) !! k)
             ↔ ∃ c, c ∈ courses ∧ k = CStr c)
     ∧ (∀ c, c ∈ courses →
             ∃ secs, of_subject !! CStr c = Some secs
                     ∧ sections_page root subject (CStr c) = Ok secs)).

Lemma flushed_is_coherent (self : fetcher) : coherent (flush_state self).
Proof.
  split.
  - intros subject courses. simpl. by rewrite lookup_empty.
  - intros subject of_subject course_no secs. simpl. by rewrite lookup_empty.
Qed.

Lemma fetch_subject_list_coherent (self self' : fetcher) (subjects : list string) :
  coherent self →
  fetch_subject_list self = (Ok subjects, self') →
  match subject_list self with
  | Some l => subjects = l
  | None => read_page SubjectListParser.class (urls_portal self) = Ok subjects
  end
  ∧ coherent self' ∧ urls_root self' = urls_root self.
Proof.
  intros Hco. rewrite fetch_subject_list_eval.
  destruct (subject_list self) as [l|].
  - by intros [= <- <-].
  - cbv zeta.
    destruct (read_page SubjectListParser.class (urls_portal self)) as [r|];
      [|done].
    intros [= <- <-]. done.
Qed.

Lemma fetch_course_list_coherent (self self' : fetcher) (subject : string)
    (courses : list string) :
  coherent self →
  fetch_course_list subject self = (Ok courses, self') →
  courses_page (urls_root self) subject = Ok courses
  ∧ coherent self' ∧ urls_root self' = urls_root self.
Proof.
  intros [Hcl Hsl]. rewrite fetch_course_list_eval.
  assert (∀ r, courses_page (urls_root self) subject = Ok r →
               coherent
                 (set_course_list (<[subject := r]> (course_list self))
                    (log_request
                       (UIUCCourseListParser,
                        urls_root self +:+ PyStr.upper subject +:+ "/") self)))
    as Hnew.
  { intros r Hpage. split; [|exact Hsl].
    intros s l. simpl. destruct (decide (subject = s)) as [<-|Hne].
    - rewrite lookup_insert_eq. by intros [= <-].
    - rewrite lookup_insert_ne by done. apply Hcl. }
  destruct (course_list self !! subject) as [[|c cs]|] eqn:Hcached; cbv zeta.
  - destruct (courses_page (urls_root self) subject) as [r|] eqn:Hpage; [|done].
    intros [= <- <-]. split; [done|]. split; [by apply Hnew|done].
  - intros [= <- <-]. split; [by apply Hcl|done].
  - destruct (courses_page (urls_root self) subject) as [r|] eqn:Hpage; [|done].
    intros [= <- <-]. split; [done|]. split; [by apply Hnew|done].
Qed.

Lemma fetch_section_list_coherent (self self' : fetcher) (subject : string)
    (course_no : course_key) (secs : section_map) :
  coherent self →
  fetch_section_list subject course_no self = (Ok secs, self') →
  sections_page (urls_root self) subject course_no = Ok secs
  ∧ coherent self' ∧ urls_root self' = urls_root self.
Proof.
  intros Hco Hcall. pose proof Hco as [Hcl Hsl].
  destruct (truthy_dict
              (match section_list self !! subject with
               | Some of_subject => of_subject !! course_no
               | None => None
               end)) eqn:Htruthy.
  - destruct (section_list self !! subject) as [of_subject|] eqn:Hsub; [|done].
    destruct (of_subject !! course_no) as [r|] eqn:Hcached; [|done].
    assert (r ≠ ∅) as Hr by (simpl in Htruthy; by case_bool_decide).
    rewrite (fetch_section_list_hit urlopen callbacks self subject course_no r)
      in Hcall; [|by rewrite Hsub|done].
    injection Hcall as <- <-. split; [|done]. by apply (Hsl subject of_subject).
  - destruct (fetch_section_list_miss urlopen callbacks self subject course_no Htruthy)
      as (of_subject & Hof & Heval).
    rewrite Heval in Hcall.
    destruct (sections_page (urls_root self) subject course_no) as [r|] eqn:Hpage;
      [|done].
    injection Hcall as <- <-. split; [done|]. split; [|done].
    split; [exact Hcl|].
    intros s m c r'. simpl. destruct (decide (subject = s)) as [<-|Hne].
    + rewrite lookup_insert_eq. intros [= <-].
      destruct (decide (course_no = c)) as [<-|Hc].
      * rewrite lookup_insert_eq. by intros [= <-].
      * rewrite lookup_insert_ne, Hof by done.
        destruct (section_list self !! subject) as [m0|] eqn:Hsub; [|done].
        by apply (Hsl subject m0).
    + rewrite lookup_insert_ne by done. apply Hsl.
Qed.

Lemma fetch_courses_coherent (subject : string) (courses : list string) :
  ∀ (acc m : gmap course_key section_map) (self self' : fetcher),
    coherent self →
    fetch_courses subject courses acc self = (Ok m, self') →
    coherent self' ∧ urls_root self' = urls_root self
    ∧ (∀ c, c ∈ courses →
            ∃ secs, m !! CStr c = Some secs
                    ∧ sections_page (urls_root self) subject (CStr c) = Ok secs)
    ∧ (∀ k, (∀ c, c ∈ courses → k ≠ CStr c) → m !! k = acc !! k).
Proof.
  induction courses as [|c courses IH]; intros acc m self self' Hco; simpl.
  - intros [= <- <-]. do 2 (split; [done|]). split; [|done].
    intros c Hc. by apply not_elem_of_nil in Hc.
  - unfold mbind, M_bind, bind.
    destruct (fetch_section_list subject (CStr c) self) as [[r|e] self1] eqn:Hcall;
      [|done].
    destruct (fetch_section_list_coherent _ _ _ _ _ Hco Hcall)
      as (Hpage & Hco1 & Hroot1).
    intros Hrest.
    destruct (IH _ _ _ _ Hco1 Hrest) as (Hco' & Hroot' & Hin & Hout).
    rewrite Hroot1 in Hroot', Hin.
    do 2 (split; [done|]). split.
    + intros c0 Hc0. destruct (decide (c0 ∈ courses)) as [Hrest0|Hnew];
        [by apply Hin|].
      apply elem_of_cons in Hc0 as [->|Hc0]; [|done].
      exists r. split; [|done].
      rewrite Hout; [by rewrite lookup_insert_eq|].
      intros c' Hc' [= ->]. done.
    + intros k Hk. rewrite Hout by (intros c' Hc'; apply Hk; by right).
      rewrite lookup_insert_ne; [done|].
      apply not_eq_sym, Hk. by left.
Qed.

Lemma fetch_subjects_coherent (subjects : list string) :
  ∀ (acc m : schedule) (self self' : fetcher),
    coherent self →
    fetch_subjects subjects acc self = (Ok m, self') →
    coherent self' ∧ urls_root self' = urls_root self
    ∧ (∀ s, s ∈ subjects →
            ∃ of_subject, m !! s = Some of_subject
                          ∧ entry_of_pages (urls_root self) s of_subject)
    ∧ (∀ s, s ∉ subjects → m !! s = acc !! s).
Proof.
  induction subjects as [|s subjects IH]; intros acc m self self' Hco; simpl.
  - intros [= <- <-]. do 2 (split; [done|]). split; [|done].
    intros s Hs. by apply not_elem_of_nil in Hs.
  - unfold mbind, M_bind, bind.
    destruct (fetch_course_list s self) as [[courses|e] self1] eqn:Hcourses; [|done].
    destruct (fetch_course_list_coherent _ _ _ _ Hco Hcourses)
      as (Hpage & Hco1 & Hroot1).
    destruct (fetch_courses s courses ∅ self1) as [[of_subject|e] self2] eqn:Hsections;
      [|done].
    destruct (fetch_courses_coherent _ _ _ _ _ _ Hco1 Hsections)
      as (Hco2 & Hroot2 & Hin2 & Hout2).
    rewrite Hroot1 in Hroot2, Hin2.
    intros Hrest.
    destruct (IH _ _ _ _ Hco2 Hrest) as (Hco' & Hroot' & Hin & Hout).
    rewrite Hroot2 in Hroot', Hin.
    do 2 (split; [done|]). split.
    + intros s0 Hs0. destruct (decide (s0 ∈ subjects)) as [Hrest0|Hnew];
        [by apply Hin|].
      apply elem_of_cons in Hs0 as [->|Hs0]; [|done].
      exists of_subject. split; [by rewrite (Hout _ Hnew), lookup_insert_eq|].
      exists courses. split; [done|]. split; [|done].
      intros k. split.
      * intros Hk.
        destruct (decide (Exists (λ c, k = CStr c) courses)) as [Hex|Hnone].
        -- apply Exists_exists in Hex as (c & Hc & ->). eauto.
        -- rewrite Hout2, lookup_empty in Hk; [by destruct Hk|].
           intros c Hc ->. apply Hnone, Exists_exists. eauto.
      * intros (c & Hc & ->). destruct (Hin2 c Hc) as (secs & -> & _). eauto.
    + intros s0 Hs0. apply not_elem_of_cons in Hs0 as [Hne Hs0].
      rewrite (Hout _ Hs0). by rewrite lookup_insert_ne.
Qed.

Lemma fetch_subjects_entries (self self' : fetcher) (subjects : list string)
    (m : schedule) :
  coherent self →
  fetch_subjects subjects ∅ self = (Ok m, self') →
  coherent self'
  ∧ (∀ s, is_Some (m !! s) ↔ s ∈ subjects)
  ∧ (∀ s of_subject, m !! s = Some of_subject →
       entry_of_pages (urls_root self) s of_subject).
Proof.
  intros Hco Hcall.
  destruct (fetch_subjects_coherent _ _ _ _ _ Hco Hcall) as (Hco' & _ & Hin & Hout).
  assert (∀ s, is_Some (m !! s) → s ∈ subjects) as Hkeys.
  { intros s Hs. destruct (decide (s ∈ subjects)) as [|Hnot]; [done|].
    rewrite (Hout _ Hnot), lookup_empty in Hs. by destruct Hs. }
  split; [done|]. split.
  - intros s. split; [apply Hkeys|].
    intros Hs. destruct (Hin s Hs) as (of_subject & -> & _). eauto.
  - intros s of_subject Hs.
    destruct (Hin s) as (of_subject' & Hs' & Hentry); [apply Hkeys; eauto|].
    rewrite Hs in Hs'. by injection Hs' as <-.
Qed.

(** X17.  On a fetcher whose caches agree with the pages, [fetch] with a
    list of subjects that returns gives a mapping whose keys are exactly
    the subjects of the list; each subject has as keys the courses of its
    page, and each course the sections of its page; the caches still
    agree with the pages afterwards. *)
Theorem fetch_list_result (self self' : fetcher) (subjects : list string)
    (course_no : option course_key) (m : schedule) :
  coherent self →
  fetch (ArgList subjects) course_no self = (Ok m, self') →
  coherent self'
  ∧ (∀ s, is_Some (m !! s) ↔ s ∈ subjects)
  ∧ (∀ s of_subject, m !! s = Some of_subject →
       entry_of_pages (urls_root self) s of_subject).
Proof. apply fetch_subjects_entries. Qed.

(** X18.  [fetch_all()], on a fetcher whose caches agree with the pages,
    returns when it returns the whole schedule: one entry for every
    subject of the subject list, the cached one or else the one read from
    the portal page, each entry with the courses of the subject's page
    and the sections of every course's page. *)
Theorem fetch_all_result (self self' : fetcher) (m : schedule) :
  coherent self →
  fetch_all self = (Ok m, self') →
  ∃ subjects,
    match subject_list self with
    | Some l => subjects = l
    | None => read_page SubjectListParser.class (urls_portal self) = Ok subjects
    end
    ∧ (∀ s, is_Some (m !! s) ↔ s ∈ subjects)
    ∧ (∀ s of_subject, m !! s = Some of_subject →
         entry_of_pages (urls_root self) s of_subject)
    ∧ coherent self'.
Proof.
  intros Hco. unfold CourseFetcher.fetch_all, CourseFetcher.fetch.
  unfold mbind, M_bind, bind.
  destruct (fetch_subject_list self) as [[subjects|e] self1] eqn:Hsubjects; [|done].
  destruct (fetch_subject_list_coherent _ _ _ Hco Hsubjects) as (Hlist & Hco1 & Hroot1).
  intros Hcall.
  destruct (fetch_subjects_entries self1 self' subjects m Hco1 Hcall)
    as (Hco' & Hkeys & Hentries).
  rewrite Hroot1 in Hentries.
  exists subjects. done.
Qed.

End FetchResult.

Section FetchResultExamples.
Import CourseFetcher.

Lemma fetch_list_result_witness :
  let self := Term2011.fetcher in
  let out := CourseFetcher.fetch Term2011.urlopen Term2011.callbacks
               (ArgList ["CS"]) None self in
  let m : schedule := {[ "CS" := {[ CStr "493" := Term2011.cs_493 ]} ]} in
  coherent Term2011.urlopen Term2011.callbacks self
  ∧ out = (Ok m, out.2)
  ∧ (∀ s, is_Some (m !! s) ↔ s ∈ ["CS"]).
Proof.
  intros self out m.
  assert (coherent Term2011.urlopen Term2011.callbacks self) as Hco
    by apply flushed_is_coherent.
  assert (out = (Ok m, out.2)) as Hout by reflexivity.
  split; [exact Hco|]. split; [exact Hout|].
  exact (proj1 (proj2 (fetch_list_result Term2011.urlopen Term2011.callbacks
                         self out.2 ["CS"] None m Hco Hout))).
Defined.

Lemma fetch_all_result_witness :
  let self := Term2011.fetcher in
  let out := CourseFetcher.fetch_all Term2011.urlopen Term2011.callbacks self in
  let m : schedule :=
    <["MATH" := ∅]> {[ "CS" := {[ CStr "493" := Term2011.cs_493 ]} ]} in
  coherent Term2011.urlopen Term2011.callbacks self
  ∧ out = (Ok m, out.2)
  ∧ ∃ subjects,
      CourseFetcher.read_page Term2011.urlopen Term2011.callbacks
        SubjectListParser.class (urls_portal self) = Ok subjects
      ∧ (∀ s, is_Some (m !! s) ↔ s ∈ subjects).
Proof.
  intros self out m.
  assert (coherent Term2011.urlopen Term2011.callbacks self) as Hco
    by apply flushed_is_coherent.
  assert (out = (Ok m, out.2)) as Hout by reflexivity.
  split; [exact Hco|]. split; [exact Hout|].
  destruct (fetch_all_result Term2011.urlopen Term2011.callbacks
              self out.2 m Hco Hout) as (subjects & Hlist & Hkeys & _).
  exists subjects. split; [exact Hlist|exact Hkeys].
Defined.

End FetchResultExamples.

(** ** The entry point *)

Section Main.
Import CourseFetcher.

Variable urlopen : string → result (list string).
Variable callbacks : list string → list callback.

Lemma append_assoc (a b c : string) : (a +:+ b) +:+ c = a +:+ (b +:+ c).
Proof.
  induction a as [|x a IH]; [done|].
  change (String x ((a +:+ b) +:+ c) = String x (a +:+ (b +:+ c))).
  by rewrite IH.
Qed.

(** X19.  Whatever the day and whatever the transport, [main()] sends one
    request and no more: for the page ART/140.html under the current year
    and the term of the current month.  What it prints is the sections of
    that page under the subject as written, [art], and the integer 140;
    when reading the page raises, the program ends with that exception. *)
Theorem main_requests_one_page (today_year today_month : Z) :
  let url :=
    "http://courses.illinois.edu/cis/" +:+ PyStr.str today_year +:+ "/"
    +:+ (if today_month <? 5 then "spring"
         else if today_month <? 8 then "summer"
         else "fall")
    +:+ "/schedule/" +:+ "ART/140.html" in
  let out := main urlopen callbacks today_year today_month in
  requests out.2 = [(UIUCSectionListParser, url)]
  ∧ out.1 = match read_page urlopen callbacks SectionListParser.class url with
            | Ok secs => Ok {[ "art" := {[ CInt 140 := secs ]} ]}
            | Raise e => Raise e
            end.
Proof.
  intros url out.
  set (self := init today_year today_month None None).
  assert (urls_root self +:+ PyStr.upper "art" +:+ "/"
          +:+ str_course (CInt 140) +:+ ".html" = url) as Hurl.
  { unfold url, self, init, resolve_term, term_of_month, site_root.
    cbn [urls_root flush_state fmap option_fmap option_map default term_rejected].
    rewrite !append_assoc. reflexivity. }
  destruct (fetch_section_list_miss urlopen callbacks self "art" (CInt 140))
    as (of_subject & _ & Heval); [done|].
  rewrite Hurl in Heval.
  assert (out = match fetch_section_list urlopen callbacks "art" (CInt 140) self with
                | (Ok r, self') => (Ok {[ "art" := {[ CInt 140 := r ]} ]}, self')
                | (Raise e, self') => (Raise e, self')
                end) as -> by reflexivity.
  rewrite Heval.
  by destruct (read_page urlopen callbacks SectionListParser.class url).
Qed.

End Main.
